(** * Lifecycle of the OpenVPN 3 Linux D-Bus services

    Shallow embedding of [src/configmgr/openvpn3-service-configmgr.cpp] and
    [src/netcfg/openvpn3-service-netcfg.cpp].

    Both programs are sequences of calls into collaborators (GLib, D-Bus,
    libcap-ng, the log writers, the payload service, the idle checker).  The
    embedding keeps the statement order of the C++ functions and records every
    collaborator call in a chronological trace; C++ exceptions are an error
    result, automatic objects are released when their scope is left, and
    [try]/[catch] selects a handler by the class of the exception. *)

From Stdlib Require Import List String Ascii ZArith Lia Bool Arith.
Import ListNotations.
Open Scope string_scope.
Open Scope list_scope.
Open Scope Z_scope.

(** ** Vocabulary of the two programs *)

Inductive Signal := SIGINT | SIGTERM.

(** Exception classes named by the [throw] and [catch] clauses of the two
    files; any other class is [OtherClass]. *)
Inductive ExnClass :=
| std_exception
| LogServiceProxyException
| CommandArgBaseException
| CommandException
| OtherClass (name : string).

Definition ExnClass_eqb (a b : ExnClass) : bool :=
  match a, b with
  | std_exception, std_exception => true
  | LogServiceProxyException, LogServiceProxyException => true
  | CommandArgBaseException, CommandArgBaseException => true
  | CommandException, CommandException => true
  | OtherClass x, OtherClass y => String.eqb x y
  | _, _ => false
  end.

(** Automatic (stack) objects whose lifetime matters for the teardown. *)
Inductive Object :=
| DBusObj                 (* DBus dbus(G_BUS_TYPE_SYSTEM) *)
| ConfigManagerDBusObj    (* ConfigManagerDBus cfgmgr(...) *)
| NetworkCfgServiceObj.   (* NetworkCfgService netcfgsrv(...) *)

Inductive LogDest := LogToFile (fname : string) | LogToStdout.

Inductive Capability := CAP_NET_ADMIN.

Inductive CapngType := CAPNG_EFFECTIVE | CAPNG_PERMITTED.

Inductive CapngFlag := CAPNG_DROP_SUPP_GRP | CAPNG_CLEAR_BOUNDING.

Inductive Output :=
| OutVersion              (* std::cout << get_version(...) *)
| OutResult (res : Z)     (* std::cout << "Result: " << res *)
| OutFatalError           (* std::cout << "FATAL ERROR: " << excp.what() *)
| OutError                (* std::cout << "** ERROR ** " << excp.what() *)
| OutDebugDetails         (* std::cout << excp.debug_details() *)
| OutWhat.                (* std::cout << excp.what() *)

(** One constructor per collaborator call of the two source files. *)
Inductive Event :=
| EDropRoot                                  (* drop_root() *)
| ERunCommand                                (* argparser.RunCommand(...): parsing *)
| ECout (o : Output)
| EMainLoopNew                               (* g_main_loop_new(NULL, FALSE) *)
| EOpenLogFile (fname : string)              (* logfs.open(fname, app) *)
| ENewANSIColours
| ENewLogWriter (coloured : bool) (d : LogDest)
| EConstruct (o : Object)
| EDestroy (o : Object)
| EDBusConnect                               (* dbus.Connect() *)
| ENewLogServiceProxy                        (* new LogServiceProxy(conn) *)
| EAttach (interf : string)                  (* AttachInterface / Attach *)
| EDetach (interf : string)
| ESetLogLevel (n : Z)                       (* cfgmgr.SetLogLevel *)
| ESetDefaultLogLevel (n : Z)                (* netcfgsrv.SetDefaultLogLevel *)
| ESetStateDirectory (d : string)
| EUmask
| ENewIdleCheck (minutes : Z)                (* new IdleCheck(main_loop, minutes) *)
| ESetPollTime (seconds : nat)
| EEnableIdleCheck                           (* service.EnableIdleCheck(idle_exit) *)
| ESignalAdd (s : Signal)                    (* g_unix_signal_add(s, stop_handler, main_loop) *)
| ESetup                                     (* service.Setup() *)
| EIdleEnable
| EMainLoopRun
| EUsleep
| EMainLoopUnref
| EIdleDisable
| EIdleJoin
| ECapngClear
| ECapngUpdateAdd (ts : list CapngType) (c : Capability)
| ELookupUid
| ELookupGid
| ECapngChangeId (uid gid : Z) (flags : list CapngFlag)
| ECapngApply.

(** What the command-line parser hands to the command function.  Options
    declared with an argument are [Some v] when [Present], with [v] the value
    at index 0; flags are booleans. *)
Record ParsedArgs := {
  arg_log_level : option string;
  arg_log_file : option string;
  arg_colour : bool;
  arg_signal_broadcast : bool;
  arg_idle_exit : option string;
  arg_state_dir : option string;
  arg_disable_capabilities : bool;
  arg_run_as_root : bool
}.

(** ** [std::atoi] and the conversion to [unsigned int] *)

Definition isspace (c : ascii) : bool :=
  match nat_of_ascii c with
  | 9%nat | 10%nat | 11%nat | 12%nat | 13%nat | 32%nat => true
  | _ => false
  end.

Definition digit_of (c : ascii) : option Z :=
  let n := Z.of_nat (nat_of_ascii c) in
  if (48 <=? n) && (n <=? 57) then Some (n - 48) else None.

Fixpoint atoi_digits (acc : Z) (s : string) : Z :=
  match s with
  | EmptyString => acc
  | String c r =>
      match digit_of c with
      | Some d => atoi_digits (10 * acc + d) r
      | None => acc
      end
  end.

Fixpoint atoi (s : string) : Z :=
  match s with
  | EmptyString => 0
  | String c r =>
      if isspace c then atoi r
      else if Ascii.eqb c "-" then - atoi_digits 0 r
      else if Ascii.eqb c "+" then atoi_digits 0 r
      else atoi_digits 0 s
  end.

(** [unsigned int x = <int>]: reduction modulo 2^32. *)
Definition to_unsigned_int (z : Z) : Z := z mod 2 ^ 32.

(** The value kept by an [int]: two's complement on 32 bits. *)
Definition to_int (z : Z) : Z := (z + 2 ^ 31) mod 2 ^ 32 - 2 ^ 31.

Definition OpenVPN3DBus_interf_configuration : string := "net.openvpn.v3.configuration".

Definition OpenVPN3DBus_interf_netcfg : string := "net.openvpn.v3.netcfg".

(** ** The idle checker *)

Module IdleCheck.

(** Modelled from the spec: the [IdleCheck] class (its poll thread and its
    [Enable]/[Disable]/[Join] operations) is declared outside the two source
    files.  The record is the spec's IdleWatchdogState; [next_poll] is the
    instant at which the sleeping poll thread wakes up next.  Time is counted
    in seconds. *)
Record IdleWatchdogState := {
  enabled : bool;
  running : bool;
  last_activity : nat;
  idle_threshold : nat;
  poll_interval : nat;
  next_poll : nat
}.

Definition set_running (b : bool) (w : IdleWatchdogState) :=
  {| enabled := enabled w; running := b; last_activity := last_activity w;
     idle_threshold := idle_threshold w; poll_interval := poll_interval w;
     next_poll := next_poll w |}.

Definition set_enabled (b : bool) (w : IdleWatchdogState) :=
  {| enabled := b; running := running w; last_activity := last_activity w;
     idle_threshold := idle_threshold w; poll_interval := poll_interval w;
     next_poll := next_poll w |}.

Definition set_last_activity (t : nat) (w : IdleWatchdogState) :=
  {| enabled := enabled w; running := running w; last_activity := t;
     idle_threshold := idle_threshold w; poll_interval := poll_interval w;
     next_poll := next_poll w |}.

Definition set_poll_interval (p : nat) (w : IdleWatchdogState) :=
  {| enabled := enabled w; running := running w; last_activity := last_activity w;
     idle_threshold := idle_threshold w; poll_interval := p;
     next_poll := next_poll w |}.

Definition set_next_poll (t : nat) (w : IdleWatchdogState) :=
  {| enabled := enabled w; running := running w; last_activity := last_activity w;
     idle_threshold := idle_threshold w; poll_interval := poll_interval w;
     next_poll := t |}.

(** Modelled from the spec: a new watchdog is disabled, its threshold is the
    configured number of minutes, and "idle from birth" counts from the
    moment of construction. *)
Definition create (now : nat) (minutes : Z) (poll : nat) : IdleWatchdogState :=
  {| enabled := false; running := false; last_activity := now;
     idle_threshold := (60 * Z.to_nat minutes)%nat; poll_interval := poll;
     next_poll := now |}.

(** Modelled from the spec: [enable()] starts the background poll thread and
    is a no-op if already enabled. *)
Definition enable (now : nat) (w : IdleWatchdogState) : IdleWatchdogState :=
  if enabled w then w
  else set_next_poll (now + poll_interval w)%nat (set_running true (set_enabled true w)).

(** Modelled from the spec: [disable()] signals the poll thread to stop at
    its next tick and does not block. *)
Definition disable (w : IdleWatchdogState) : IdleWatchdogState :=
  set_enabled false w.

(** Modelled from the spec: [join()] returns once the poll thread has fully
    exited. *)
Definition join (w : IdleWatchdogState) : IdleWatchdogState :=
  set_running false w.

(** Modelled from the spec: the activity pulse of the payload service; a
    busy report refreshes the shared timestamp. *)
Definition pulse (now : nat) (busy : bool) (w : IdleWatchdogState) : IdleWatchdogState :=
  if busy then set_last_activity now w else w.

(** Modelled from the spec: one wake-up of the poll thread at instant [now].
    The result tells whether loop termination is requested.  A thread that
    finds the watchdog disabled exits; a thread that finds the daemon
    non-busy for at least the threshold requests termination and stops
    polling; otherwise it sleeps for another poll interval. *)
Definition poll (now : nat) (w : IdleWatchdogState) : IdleWatchdogState * bool :=
  if negb (enabled w) then (set_running false w, false)
  else if (idle_threshold w <=? now - last_activity w)%nat
       then (set_running false w, true)
       else (set_next_poll (now + poll_interval w)%nat w, false).

(** Modelled from the spec: one second of wall-clock time seen from the
    watchdog: the pulse of that second, then the poll thread if it is due. *)
Definition tick (now : nat) (busy : bool) (w : IdleWatchdogState) : IdleWatchdogState * bool :=
  let w1 := pulse now busy w in
  if running w1 && (now =? next_poll w1)%nat then poll now w1 else (w1, false).

End IdleCheck.

(** ** Process state, results and the effect monad *)

Inductive ShutdownRequest := signal_terminate | signal_interrupt | idle_timeout.

Definition request_of_signal (s : Signal) : ShutdownRequest :=
  match s with SIGINT => signal_interrupt | SIGTERM => signal_terminate end.

Inductive Phase := Bootstrap | Running | Stopping | Stopped.

(** What happens during one second of the loop's life. *)
Record Slot := {
  slot_busy : bool;               (* the payload reports itself busy *)
  slot_signal : option Signal     (* a termination signal is delivered *)
}.

(** The environment of one execution: everything the two programs read from
    outside, and the faults injected into their collaborators. *)
Record Env := {
  throws : Event -> option ExnClass;          (* a C++ collaborator call raises *)
  derives : ExnClass -> ExnClass -> bool;     (* class hierarchy of the headers *)
  DEBUG_OPTIONS : bool;                       (* build-time macro *)
  getegid : Z;
  geteuid : Z;
  lookup_uid : Z;                             (* lookup_uid(OPENVPN_USERNAME) *)
  lookup_gid : Z;                             (* lookup_gid(OPENVPN_GROUP) *)
  capng_change_id_result : Z;
  default_poll_time : nat;                    (* poll time of a new IdleCheck *)
  schedule : list Slot;                       (* what happens once the loop runs *)
  teardown_time : nat                         (* seconds from the return of the loop
                                                 to Disable() *)
}.

(** The part of the process state that evolves with time once the loop runs:
    it is shared between the loop thread and the watchdog thread. *)
Record Timeline := {
  requests : list ShutdownRequest;    (* termination requests received by the loop *)
  clock : nat;                        (* seconds *)
  idle : option IdleCheck.IdleWatchdogState;   (* the one IdleCheck object *)
  pending : list Slot                 (* the part of the schedule still to come *)
}.

Record World := {
  env : Env;
  events : list Event;                (* collaborator calls, newest first *)
  handlers : list Signal;             (* signals routed to stop_handler *)
  phase : Phase;
  timeline : Timeline
}.

(** The calls made so far, in chronological order. *)
Definition trace (w : World) : list Event := rev (events w).

Definition init_world (e : Env) : World :=
  {| env := e; events := []; handlers := []; phase := Bootstrap;
     timeline := {| requests := []; clock := 0%nat; idle := None;
                    pending := schedule e |} |}.

Definition record_events (evs : list Event) (w : World) : World :=
  {| env := env w; events := rev evs ++ events w; handlers := handlers w;
     phase := phase w; timeline := timeline w |}.

Definition record_event (ev : Event) (w : World) : World :=
  {| env := env w; events := ev :: events w; handlers := handlers w;
     phase := phase w; timeline := timeline w |}.

Definition set_handlers (h : list Signal) (w : World) : World :=
  {| env := env w; events := events w; handlers := h;
     phase := phase w; timeline := timeline w |}.

Definition set_phase (p : Phase) (w : World) : World :=
  {| env := env w; events := events w; handlers := handlers w;
     phase := p; timeline := timeline w |}.

Definition set_timeline (t : Timeline) (w : World) : World :=
  {| env := env w; events := events w; handlers := handlers w;
     phase := phase w; timeline := t |}.

Definition set_idle (i : option IdleCheck.IdleWatchdogState) (t : Timeline) : Timeline :=
  {| requests := requests t; clock := clock t; idle := i; pending := pending t |}.

Definition add_request (r : ShutdownRequest) (t : Timeline) : Timeline :=
  {| requests := requests t ++ [r]; clock := clock t; idle := idle t;
     pending := pending t |}.

Inductive HaltReason :=
| StillRunning                 (* the loop has not been asked to stop *)
| KilledBy (s : Signal).       (* default disposition of an unhandled signal *)

(** Result of a computation: a value, a C++ exception in flight together
    with the destructors that unwinding will run once a handler is found, or
    the end of the observation. *)
Inductive Result (A : Type) :=
| Ok (a : A)
| Raise (e : ExnClass) (unwind : list Event)
| Halt (h : HaltReason).
Arguments Ok {A} a.
Arguments Raise {A} e unwind.
Arguments Halt {A} h.

Definition M (A : Type) : Type := World -> Result A * World.

Definition ret {A} (a : A) : M A := fun w => (Ok a, w).

Definition bind {A B} (m : M A) (k : A -> M B) : M B :=
  fun w =>
    match m w with
    | (Ok a, w') => k a w'
    | (Raise e u, w') => (Raise e u, w')
    | (Halt h, w') => (Halt h, w')
    end.

Notation "x <- m ;; k" := (bind m (fun x => k))
  (at level 61, m at next level, right associativity).

Notation "m ;; k" := (bind m (fun _ => k))
  (at level 61, right associativity).

Definition throw {A} (e : ExnClass) : M A := fun w => (Raise e [], w).

(** A call into C++ code: it is recorded, and it may raise. *)
Definition call (ev : Event) : M unit :=
  fun w =>
    match throws (env w) ev with
    | Some e => (Raise e [], record_event ev w)
    | None => (Ok tt, record_event ev w)
    end.

(** A call into a C library or a stream operation: recorded, never raises. *)
Definition call_c (ev : Event) : M unit :=
  fun w => (Ok tt, record_event ev w).

Definition ask {A} (f : Env -> A) : M A := fun w => (Ok (f (env w)), w).

(** [catch (const C&)] matches an exception of class [C] or derived from it. *)
Definition catches (e : Env) (handler thrown : ExnClass) : bool :=
  ExnClass_eqb thrown handler || derives e thrown handler.

(** An automatic object: constructed, used by [body], destroyed when the
    scope is left.  When the scope is left by an exception the destructor is
    queued until a handler is found. *)
Definition with_local {A} (o : Object) (body : M A) : M A :=
  fun w =>
    match call (EConstruct o) w with
    | (Ok _, w1) =>
        match body w1 with
        | (Ok a, w2) => (Ok a, record_event (EDestroy o) w2)
        | (Raise e u, w2) => (Raise e (u ++ [EDestroy o]), w2)
        | (Halt h, w2) => (Halt h, w2)
        end
    | (Raise e u, w1) => (Raise e u, w1)
    | (Halt h, w1) => (Halt h, w1)
    end.

(** [try { body } catch (C& excp) { handler }]: when the handler matches,
    the stack is unwound and the handler runs. *)
Definition try_catch {A} (body : M A) (C : ExnClass) (handler : M A) : M A :=
  fun w =>
    match body w with
    | (Raise e u, w') =>
        if catches (env w') C e then handler (record_events u w')
        else (Raise e u, w')
    | r => r
    end.

(** ** The GLib main loop and the watchdog thread *)

(** [g_unix_signal_add(sig, stop_handler, main_loop)]. *)
Definition g_unix_signal_add (s : Signal) : M unit :=
  fun w => (Ok tt, set_handlers (handlers w ++ [s]) (record_event (ESignalAdd s) w)).

Definition Signal_eqb (a b : Signal) : bool :=
  match a, b with
  | SIGINT, SIGINT | SIGTERM, SIGTERM => true
  | _, _ => false
  end.

(** Modelled from the spec: [stop_handler] lives outside the two source
    files.  A termination signal received by the loop requests its
    termination; the signal reaches the loop when it was routed to
    [stop_handler], or when an [IdleCheck] object exists ("If we don't use
    the IdleChecker, handle these signals in via the stop_handler instead"). *)
Definition signal_handled (s : Signal) (h : list Signal) (t : Timeline) : bool :=
  existsb (Signal_eqb s) h ||
  match idle t with Some _ => true | None => false end.

(** Modelled from the spec: one second passes; the watchdog thread, if any,
    sees the pulse of that second and polls if it is due; a termination
    request of the watchdog is delivered to the loop. *)
Definition advance (sl : Slot) (rest : list Slot) (t : Timeline) : Timeline * bool :=
  let now := S (clock t) in
  match idle t with
  | Some st =>
      let '(st', fired) := IdleCheck.tick now (slot_busy sl) st in
      ({| requests := requests t ++ (if fired then [idle_timeout] else []);
          clock := now; idle := Some st'; pending := rest |}, fired)
  | None =>
      ({| requests := requests t; clock := now; idle := None; pending := rest |},
       false)
  end.

Inductive LoopEnd :=
| LoopQuit                     (* g_main_loop_run returns *)
| LoopHalt (h : HaltReason).

(** Modelled from the spec: the cooperative loop runs, second after second,
    until it receives a termination request: from the watchdog thread, or
    from a termination signal.  A schedule that ends without a request
    leaves the process inside the loop. *)
Fixpoint loop_iterate (h : list Signal) (sched : list Slot) (t : Timeline)
  : LoopEnd * Timeline :=
  match sched with
  | [] => (LoopHalt StillRunning, t)
  | sl :: rest =>
      let '(t1, fired) := advance sl rest t in
      match slot_signal sl with
      | Some s =>
          if signal_handled s h t
          then (LoopQuit, add_request (request_of_signal s) t1)
          else (LoopHalt (KilledBy s), t1)
      | None => if fired then (LoopQuit, t1) else loop_iterate h rest t1
      end
  end.

(** [g_main_loop_run(main_loop)]. *)
Definition g_main_loop_run : M unit :=
  fun w =>
    let w0 := set_phase Running (record_event EMainLoopRun w) in
    match loop_iterate (handlers w0) (pending (timeline w0)) (timeline w0) with
    | (LoopQuit, t1) => (Ok tt, set_phase Stopping (set_timeline t1 w0))
    | (LoopHalt r, t1) => (Halt r, set_timeline t1 w0)
    end.

(** Modelled from the spec: [n] seconds pass after the return of the loop;
    only the watchdog thread is still active. *)
Fixpoint elapse (n : nat) (t : Timeline) : Timeline :=
  match n with
  | O => t
  | S n' =>
      match pending t with
      | [] => t
      | sl :: rest => elapse n' (fst (advance sl rest t))
      end
  end.

Definition update_timeline (f : Timeline -> Timeline) : M unit :=
  fun w => (Ok tt, set_timeline (f (timeline w)) w).

Definition update_idle (f : IdleCheck.IdleWatchdogState -> IdleCheck.IdleWatchdogState)
  : M unit :=
  update_timeline (fun t => set_idle (option_map f (idle t)) t).

(** [new IdleCheck(main_loop, std::chrono::minutes(minutes))]. *)
Definition new_IdleCheck (minutes : Z) : M unit :=
  call (ENewIdleCheck minutes) ;;
  poll <- ask default_poll_time ;;
  update_timeline (fun t => set_idle (Some (IdleCheck.create (clock t) minutes poll)) t).

Definition IdleCheck_SetPollTime (seconds : nat) : M unit :=
  call (ESetPollTime seconds) ;;
  update_idle (IdleCheck.set_poll_interval seconds).

Definition IdleCheck_Enable : M unit :=
  call EIdleEnable ;;
  update_timeline (fun t => set_idle (option_map (IdleCheck.enable (clock t)) (idle t)) t).

(** Modelled from the spec: [idle_exit->Disable()].  The watchdog thread has
    been running for [teardown_time] seconds since the loop returned when it
    is told to stop. *)
Definition IdleCheck_Disable : M unit :=
  delay <- ask teardown_time ;;
  update_timeline (elapse delay) ;;
  call EIdleDisable ;;
  update_idle IdleCheck.disable.

Definition IdleCheck_Join : M unit :=
  call EIdleJoin ;;
  update_idle IdleCheck.join.

(** ** Code shared by the two daemons

    Both files open the log destination with the same statements
    (configmgr lines 49-78, netcfg lines 72-101).  The result tells whether
    [logwr] is non-null. *)
Definition open_log_destination (args : ParsedArgs) : M bool :=
  match arg_log_file args with
  | Some fname =>
      dest <- (if negb (String.eqb "stdout:" fname)
               then call_c (EOpenLogFile fname) ;; ret (LogToFile fname)
               else ret LogToStdout) ;;
      (if arg_colour args
       then call ENewANSIColours ;; call (ENewLogWriter true dest)
       else call (ENewLogWriter false dest)) ;;
      ret true
  | None => ret false
  end.

(** Outcome of a process. *)
Inductive Outcome :=
| Exit (code : Z)                 (* [main] returned *)
| Terminate (e : ExnClass)        (* an exception left [main] *)
| Halted (h : HaltReason).

(** [argparser.RunCommand(...)]: the parser is outside the source files; it
    parses the command line, which may raise, and calls the command. *)
Definition RunCommand (command : ParsedArgs -> M Z) (args : ParsedArgs) : M Z :=
  call ERunCommand ;;
  command args.

(** [main] returns: the process has stopped.  An exception that leaves
    [main] ends the process without unwinding. *)
Definition finish (r : Result Z * World) : Outcome * World :=
  match r with
  | (Ok code, w) => (Exit code, set_phase Stopped w)
  | (Raise e _, w) => (Terminate e, w)
  | (Halt h, w) => (Halted h, w)
  end.

(** ** openvpn3-service-configmgr *)

Module ConfigMgr.

Definition idle_wait_min (args : ParsedArgs) : Z :=
  match arg_idle_exit args with
  | Some v => to_unsigned_int (atoi v)
  | None => 3
  end.

Definition log_level (args : ParsedArgs) : Z :=
  match arg_log_level args with
  | Some v => to_unsigned_int (atoi v)
  | None => 3
  end.

(** Lines 79-139 of [config_manager]: from the bus connection to the end
    of the teardown. *)
Definition serve (args : ParsedArgs) : M Z :=
  let idle_wait_min := idle_wait_min args in
  let signal_broadcast := arg_signal_broadcast args in
  with_local DBusObj (
    call EDBusConnect ;;
    with_local ConfigManagerDBusObj (
      logsrvprx <- (if negb signal_broadcast
                    then call (EAttach OpenVPN3DBus_interf_configuration) ;; ret true
                    else ret false) ;;
      call (ESetLogLevel (log_level args)) ;;
      match arg_state_dir args with
      | Some d => call (ESetStateDirectory d) ;; call_c EUmask
      | None => ret tt
      end ;;
      (if 0 <? idle_wait_min
       then new_IdleCheck idle_wait_min ;; call EEnableIdleCheck
       else
         (* If we don't use the IdleChecker, handle these signals
            in via the stop_handler instead *)
         g_unix_signal_add SIGINT ;; g_unix_signal_add SIGTERM) ;;
      call ESetup ;;
      (if 0 <? idle_wait_min then IdleCheck_Enable else ret tt) ;;
      g_main_loop_run ;;
      call_c EMainLoopUnref ;;
      (if (logsrvprx : bool)
       then call (EDetach OpenVPN3DBus_interf_configuration)
       else ret tt) ;;
      (if 0 <? idle_wait_min
       then IdleCheck_Disable ;; IdleCheck_Join
       else ret tt) ;;
      ret 0)).

Definition config_manager (args : ParsedArgs) : M Z :=
  call (ECout OutVersion) ;;
  call_c EMainLoopNew ;;
  logwr <- open_log_destination args ;;
  serve args.

Definition main_body (args : ParsedArgs) : M Z :=
  try_catch
    (try_catch
       ((* This program does not require root privileges,
           so if used - drop those privileges *)
        call EDropRoot ;;
        RunCommand config_manager args)
       LogServiceProxyException
       (call_c (ECout OutError) ;; call_c (ECout OutDebugDetails) ;; ret 2))
    CommandArgBaseException
    (call_c (ECout OutWhat) ;; ret 2).

Definition main (e : Env) (args : ParsedArgs) : Outcome * World :=
  finish (main_body args (init_world e)).

End ConfigMgr.

(** ** openvpn3-service-netcfg *)

Module NetCfg.

Definition drop_root_ng : M unit :=
  call ELookupUid ;;
  uid <- ask lookup_uid ;;
  call ELookupGid ;;
  gid <- ask lookup_gid ;;
  let flags := [CAPNG_DROP_SUPP_GRP; CAPNG_CLEAR_BOUNDING] in
  call_c (ECapngChangeId uid gid flags) ;;
  res <- ask capng_change_id_result ;;
  if negb (0 =? res)
  then call_c (ECout (OutResult res)) ;; throw CommandException
  else ret tt.

Definition capng_add_net_admin : M unit :=
  call_c (ECapngUpdateAdd [CAPNG_EFFECTIVE; CAPNG_PERMITTED] CAP_NET_ADMIN).

Definition log_level (args : ParsedArgs) : Z :=
  match arg_log_level args with
  | Some v => to_int (atoi v)
  | None => -1
  end.

Definition idle_wait_min (args : ParsedArgs) : Z :=
  match arg_idle_exit args with
  | Some v => to_unsigned_int (atoi v)
  | None => 5
  end.

(** Lines 103-126 of [netcfg_main]: prepare dropping capabilities and user
    privileges. *)
Definition restrict_privileges (args : ParsedArgs) : M unit :=
  call_c ECapngClear ;;
  debug <- ask DEBUG_OPTIONS ;;
  (if (debug : bool)
   then
     (if negb (arg_disable_capabilities args)
      then capng_add_net_admin   (* Need this capability to configure network and routing *)
      else ret tt) ;;
     (if negb (arg_run_as_root args)
      then drop_root_ng          (* With the capapbility set, no root account access is needed *)
      else ret tt)
   else
     capng_add_net_admin ;;
     drop_root_ng) ;;
  call_c ECapngApply.

(** Lines 128-211 of [netcfg_main]: from the bus connection to the end of
    the teardown, inside the [try] block, and the final [return]. *)
Definition serve (args : ParsedArgs) : M Z :=
  let log_level := log_level args in
  let idle_wait_min := idle_wait_min args in
  let signal_broadcast := arg_signal_broadcast args in
  r <- try_catch
         (with_local DBusObj (
            call EDBusConnect ;;
            (* If we do multicast (!broadcast), attach to the log service *)
            logservice <- (if negb signal_broadcast
                           then call ENewLogServiceProxy ;;
                                call (EAttach OpenVPN3DBus_interf_netcfg) ;;
                                ret true
                           else ret false) ;;
            call (ECout OutVersion) ;;
            with_local NetworkCfgServiceObj (
              (if 0 <? log_level
               then call (ESetDefaultLogLevel log_level)
               else ret tt) ;;
              (* Prepare GLib Main loop *)
              call_c EMainLoopNew ;;
              g_unix_signal_add SIGINT ;;
              g_unix_signal_add SIGTERM ;;
              (* Setup idle-exit logic *)
              (if 0 <? idle_wait_min
               then new_IdleCheck idle_wait_min ;;
                    IdleCheck_SetPollTime 30 ;;
                    call EEnableIdleCheck
               else ret tt) ;;
              call ESetup ;;
              (if 0 <? idle_wait_min then IdleCheck_Enable else ret tt) ;;
              (* Start the main loop *)
              g_main_loop_run ;;
              call_c EUsleep ;;
              call_c EMainLoopUnref ;;
              (if (logservice : bool)
               then call (EDetach OpenVPN3DBus_interf_netcfg)
               else ret tt) ;;
              (if 0 <? idle_wait_min
               then IdleCheck_Disable ;; IdleCheck_Join
               else ret tt) ;;
              ret None)))
         std_exception
         (call_c (ECout OutFatalError) ;; ret (Some 3)) ;;
  match r with
  | Some code => ret code
  | None => ret 0
  end.

Definition netcfg_main (args : ParsedArgs) : M Z :=
  egid <- ask getegid ;;
  euid <- ask geteuid ;;
  if negb (0 =? egid) || negb (0 =? euid)
  then throw CommandException      (* "This program must be started as root" *)
  else
    (* Open a log destination, if requested.  This is opened before dropping
       privileges, to more easily tackle scenarios where logging goes to a
       file in /var/log or other directories where only root has access *)
    logwr <- open_log_destination args ;;
    restrict_privileges args ;;
    serve args.

Definition main_body (args : ParsedArgs) : M Z :=
  try_catch
    (RunCommand netcfg_main args)
    CommandException
    (call_c (ECout OutWhat) ;; ret 2).

Definition main (e : Env) (args : ParsedArgs) : Outcome * World :=
  finish (main_body args (init_world e)).

End NetCfg.

(** ** libcap-ng: the capability state a sequence of calls builds up *)

Module Capng.

Record State := {
  effective : list Capability;
  permitted : list Capability
}.

Definition has_type (t : CapngType) (ts : list CapngType) : bool :=
  existsb (fun u => match t, u with
                    | CAPNG_EFFECTIVE, CAPNG_EFFECTIVE
                    | CAPNG_PERMITTED, CAPNG_PERMITTED => true
                    | _, _ => false
                    end) ts.

(** [capng_clear(CAPNG_SELECT_BOTH)] empties the sets,
    [capng_update(CAPNG_ADD, types, cap)] adds [cap] to the selected ones. *)
Definition step (s : State) (ev : Event) : State :=
  match ev with
  | ECapngClear => {| effective := []; permitted := [] |}
  | ECapngUpdateAdd ts c =>
      {| effective := if has_type CAPNG_EFFECTIVE ts then c :: effective s else effective s;
         permitted := if has_type CAPNG_PERMITTED ts then c :: permitted s else permitted s |}
  | _ => s
  end.

Definition interp (tr : list Event) : State :=
  fold_left step tr {| effective := []; permitted := [] |}.

Definition holds (c : Capability) (l : list Capability) : bool :=
  existsb (fun d => match c, d with CAP_NET_ADMIN, CAP_NET_ADMIN => true end) l.

End Capng.

(** ** Observations on traces *)

Definition is_attach (ev : Event) : bool :=
  match ev with EAttach _ => true | _ => false end.

Definition is_detach (ev : Event) : bool :=
  match ev with EDetach _ => true | _ => false end.

Definition is_signal_add (ev : Event) : bool :=
  match ev with ESignalAdd _ => true | _ => false end.

Definition is_loop_run (ev : Event) : bool :=
  match ev with EMainLoopRun => true | _ => false end.

Definition is_loop_unref (ev : Event) : bool :=
  match ev with EMainLoopUnref => true | _ => false end.

Definition is_bus_release (ev : Event) : bool :=
  match ev with EDestroy DBusObj => true | _ => false end.

Definition is_bus_connect (ev : Event) : bool :=
  match ev with EConstruct DBusObj | EDBusConnect => true | _ => false end.

Definition is_idle_join (ev : Event) : bool :=
  match ev with EIdleJoin => true | _ => false end.

Definition is_watchdog (ev : Event) : bool :=
  match ev with
  | ENewIdleCheck _ | ESetPollTime _ | EEnableIdleCheck
  | EIdleEnable | EIdleDisable | EIdleJoin => true
  | _ => false
  end.

Definition is_log_sink (ev : Event) : bool :=
  match ev with EOpenLogFile _ | ENewLogWriter _ _ => true | _ => false end.

Definition is_change_id (ev : Event) : bool :=
  match ev with ECapngChangeId _ _ _ => true | _ => false end.

Definition is_capng (ev : Event) : bool :=
  match ev with
  | ECapngClear | ECapngUpdateAdd _ _ | ECapngChangeId _ _ _ | ECapngApply => true
  | _ => false
  end.

Definition is_drop_root (ev : Event) : bool :=
  match ev with EDropRoot => true | _ => false end.

(** Position of the first event of a kind. *)
Fixpoint first_index (p : Event -> bool) (tr : list Event) : option nat :=
  match tr with
  | [] => None
  | ev :: r => if p ev then Some 0%nat else option_map S (first_index p r)
  end.

(** Every event of kind [pb] comes after some event of kind [pa]. *)
Fixpoint preceded_from (seen : bool) (pa pb : Event -> bool) (tr : list Event) : bool :=
  match tr with
  | [] => true
  | ev :: r => (if pb ev then seen else true) && preceded_from (seen || pa ev) pa pb r
  end.

Definition always_preceded := preceded_from false.

Definition none_of (p : Event -> bool) (tr : list Event) : bool :=
  negb (existsb p tr).

(** The calls made before [g_main_loop_run], and the calls made after it. *)
Fixpoint bootstrap_part (tr : list Event) : list Event :=
  match tr with
  | [] => []
  | ev :: r => if is_loop_run ev then [] else ev :: bootstrap_part r
  end.

Fixpoint teardown_part (tr : list Event) : list Event :=
  match tr with
  | [] => []
  | ev :: r => if is_loop_run ev then r else teardown_part r
  end.

(** At every identity switch of the trace, [CAP_NET_ADMIN] is in the
    effective and in the permitted set built up so far. *)
Fixpoint retained_at_switch (s : Capng.State) (tr : list Event) : bool :=
  match tr with
  | [] => true
  | ev :: r =>
      (if is_change_id ev
       then Capng.holds CAP_NET_ADMIN (Capng.effective s) &&
            Capng.holds CAP_NET_ADMIN (Capng.permitted s)
       else true)
      && retained_at_switch (Capng.step s ev) r
  end.

(** ** The two daemons side by side *)

Inductive Daemon := ConfigMgrD | NetCfgD.

Definition run (d : Daemon) : Env -> ParsedArgs -> Outcome * World :=
  match d with
  | ConfigMgrD => ConfigMgr.main
  | NetCfgD => NetCfg.main
  end.

(** Lines 79-139 of [config_manager], lines 128-211 of [netcfg_main]. *)
Definition serve (d : Daemon) : ParsedArgs -> M Z :=
  match d with
  | ConfigMgrD => ConfigMgr.serve
  | NetCfgD => NetCfg.serve
  end.

Definition idle_wait_min (d : Daemon) : ParsedArgs -> Z :=
  match d with
  | ConfigMgrD => ConfigMgr.idle_wait_min
  | NetCfgD => NetCfg.idle_wait_min
  end.


Definition log_interface (d : Daemon) : string :=
  match d with
  | ConfigMgrD => OpenVPN3DBus_interf_configuration
  | NetCfgD => OpenVPN3DBus_interf_netcfg
  end.

Definition service_object (d : Daemon) : Object :=
  match d with
  | ConfigMgrD => ConfigManagerDBusObj
  | NetCfgD => NetworkCfgServiceObj
  end.

(** ** Concrete inputs used by the examples *)

(** A class hierarchy for the examples: the exception classes of the
    project derive from [std::exception], and [CommandException] from
    [CommandArgBaseException]. *)
Definition header_derives (a b : ExnClass) : bool :=
  match a, b with
  | CommandException, CommandArgBaseException => true
  | CommandException, std_exception => true
  | CommandArgBaseException, std_exception => true
  | LogServiceProxyException, std_exception => true
  | OtherClass _, std_exception => true
  | _, _ => false
  end.

Definition quiet_slot : Slot := {| slot_busy := false; slot_signal := None |}.

Definition signal_slot (s : Signal) : Slot :=
  {| slot_busy := false; slot_signal := Some s |}.

(** Started as root, no fault, an idle payload for 200 seconds. *)
Definition calm_env : Env :=
  {| throws := fun _ => None; derives := header_derives; DEBUG_OPTIONS := false;
     getegid := 0; geteuid := 0; lookup_uid := 990; lookup_gid := 990;
     capng_change_id_result := 0; default_poll_time := 15%nat;
     schedule := repeat quiet_slot 200; teardown_time := 2%nat |}.

Definition with_schedule (s : list Slot) (e : Env) : Env :=
  {| throws := throws e; derives := derives e; DEBUG_OPTIONS := DEBUG_OPTIONS e;
     getegid := getegid e; geteuid := geteuid e; lookup_uid := lookup_uid e;
     lookup_gid := lookup_gid e;
     capng_change_id_result := capng_change_id_result e;
     default_poll_time := default_poll_time e; schedule := s;
     teardown_time := teardown_time e |}.

Definition with_throws (f : Event -> option ExnClass) (e : Env) : Env :=
  {| throws := f; derives := derives e; DEBUG_OPTIONS := DEBUG_OPTIONS e;
     getegid := getegid e; geteuid := geteuid e; lookup_uid := lookup_uid e;
     lookup_gid := lookup_gid e;
     capng_change_id_result := capng_change_id_result e;
     default_poll_time := default_poll_time e; schedule := schedule e;
     teardown_time := teardown_time e |}.

Definition no_args : ParsedArgs :=
  {| arg_log_level := None; arg_log_file := None; arg_colour := false;
     arg_signal_broadcast := false; arg_idle_exit := None; arg_state_dir := None;
     arg_disable_capabilities := false; arg_run_as_root := false |}.

Definition with_idle_exit (v : string) (a : ParsedArgs) : ParsedArgs :=
  {| arg_log_level := arg_log_level a; arg_log_file := arg_log_file a;
     arg_colour := arg_colour a; arg_signal_broadcast := arg_signal_broadcast a;
     arg_idle_exit := Some v; arg_state_dir := arg_state_dir a;
     arg_disable_capabilities := arg_disable_capabilities a;
     arg_run_as_root := arg_run_as_root a |}.

Definition one_minute : ParsedArgs := with_idle_exit "1" no_args.

Definition with_log_file (v : string) (a : ParsedArgs) : ParsedArgs :=
  {| arg_log_level := arg_log_level a; arg_log_file := Some v;
     arg_colour := arg_colour a; arg_signal_broadcast := arg_signal_broadcast a;
     arg_idle_exit := arg_idle_exit a; arg_state_dir := arg_state_dir a;
     arg_disable_capabilities := arg_disable_capabilities a;
     arg_run_as_root := arg_run_as_root a |}.

Definition with_broadcast (a : ParsedArgs) : ParsedArgs :=
  {| arg_log_level := arg_log_level a; arg_log_file := arg_log_file a;
     arg_colour := arg_colour a; arg_signal_broadcast := true;
     arg_idle_exit := arg_idle_exit a; arg_state_dir := arg_state_dir a;
     arg_disable_capabilities := arg_disable_capabilities a;
     arg_run_as_root := arg_run_as_root a |}.

(** ** What a run may contain *)

Definition is_relay (ev : Event) : bool := is_attach ev || is_detach ev.

Definition is_destroy (ev : Event) : bool :=
  match ev with EDestroy _ => true | _ => false end.

(** Privilege handling and log set-up: the calls both daemons make before
    they connect to the bus. *)
Definition is_privilege (ev : Event) : bool :=
  match ev with
  | EDropRoot | ECapngClear | ECapngUpdateAdd _ _ | ELookupUid | ELookupGid
  | ECapngChangeId _ _ _ | ECapngApply => true
  | _ => false
  end.

Definition is_log_setup (ev : Event) : bool :=
  match ev with
  | EOpenLogFile _ | ENewANSIColours | ENewLogWriter _ _ => true
  | _ => false
  end.

Definition is_startup (ev : Event) : bool :=
  match ev with
  | ERunCommand => true
  | _ => is_privilege ev || is_log_setup ev
  end.

Definition is_prologue (ev : Event) : bool :=
  match ev with
  | ECout _ | EMainLoopNew => true
  | _ => is_startup ev
  end.

(** Calls that cannot raise: C library functions, stream operations and
    destructors (the calls made with [call_c]). *)
Definition is_c_call (ev : Event) : bool :=
  match ev with
  | ECout OutVersion => false
  | ECout _ | EMainLoopNew | EOpenLogFile _ | EDestroy _ | EUmask
  | ESignalAdd _ | EMainLoopRun | EUsleep | EMainLoopUnref
  | ECapngClear | ECapngUpdateAdd _ _ | ECapngChangeId _ _ _ | ECapngApply => true
  | _ => false
  end.

(** The exception a call raises in environment [e], if any. *)
Definition raises (e : Env) (ev : Event) : option ExnClass :=
  if is_c_call ev then None else throws e ev.

(** The calls a run of daemon [d] with arguments [args] can make at all:
    the logging relay is only talked to in unicast mode, the idle checker
    only exists for a positive threshold, configmgr routes signals to
    [stop_handler] only without idle checker, and the privilege calls differ
    between the daemons. *)
Definition may_occur (d : Daemon) (args : ParsedArgs) (ev : Event) : bool :=
  match ev with
  | ENewLogServiceProxy | EAttach _ | EDetach _ => negb (arg_signal_broadcast args)
  | ENewIdleCheck _ | ESetPollTime _ | EEnableIdleCheck
  | EIdleEnable | EIdleDisable | EIdleJoin => 0 <? idle_wait_min d args
  | ESignalAdd _ =>
      match d with
      | NetCfgD => true
      | ConfigMgrD => negb (0 <? idle_wait_min d args)
      end
  | EDropRoot =>
      match d with ConfigMgrD => true | NetCfgD => false end
  | ECapngClear | ECapngUpdateAdd _ _ | ELookupUid | ELookupGid
  | ECapngChangeId _ _ _ | ECapngApply =>
      match d with ConfigMgrD => false | NetCfgD => true end
  | _ => true
  end.

(** The calls of a run that reaches the loop, from the bus connection to
    the start of the loop. *)
Definition orderly_bootstrap (d : Daemon) (args : ParsedArgs) : list Event :=
  match d with
  | ConfigMgrD =>
      [EConstruct DBusObj; EDBusConnect; EConstruct ConfigManagerDBusObj]
      ++ (if arg_signal_broadcast args then []
          else [EAttach OpenVPN3DBus_interf_configuration])
      ++ [ESetLogLevel (ConfigMgr.log_level args)]
      ++ match arg_state_dir args with
         | Some dir => [ESetStateDirectory dir; EUmask]
         | None => []
         end
      ++ (if 0 <? ConfigMgr.idle_wait_min args
          then [ENewIdleCheck (ConfigMgr.idle_wait_min args); EEnableIdleCheck]
          else [ESignalAdd SIGINT; ESignalAdd SIGTERM])
      ++ [ESetup]
      ++ (if 0 <? ConfigMgr.idle_wait_min args then [EIdleEnable] else [])
  | NetCfgD =>
      [EConstruct DBusObj; EDBusConnect]
      ++ (if arg_signal_broadcast args then []
          else [ENewLogServiceProxy; EAttach OpenVPN3DBus_interf_netcfg])
      ++ [ECout OutVersion; EConstruct NetworkCfgServiceObj]
      ++ (if 0 <? NetCfg.log_level args
          then [ESetDefaultLogLevel (NetCfg.log_level args)] else [])
      ++ [EMainLoopNew; ESignalAdd SIGINT; ESignalAdd SIGTERM]
      ++ (if 0 <? NetCfg.idle_wait_min args
          then [ENewIdleCheck (NetCfg.idle_wait_min args); ESetPollTime 30;
                EEnableIdleCheck]
          else [])
      ++ [ESetup]
      ++ (if 0 <? NetCfg.idle_wait_min args then [EIdleEnable] else [])
  end.

(** The calls of an orderly shutdown, after the loop has returned. *)
Definition orderly_teardown (d : Daemon) (args : ParsedArgs) : list Event :=
  match d with ConfigMgrD => [] | NetCfgD => [EUsleep] end
  ++ [EMainLoopUnref]
  ++ (if arg_signal_broadcast args then [] else [EDetach (log_interface d)])
  ++ (if 0 <? idle_wait_min d args then [EIdleDisable; EIdleJoin] else [])
  ++ [EDestroy (service_object d); EDestroy DBusObj].

(** What an exception [x] raised inside [serve] does to its result: netcfg
    turns a [std::exception] into the return value 3, anything else
    propagates. *)
Definition raised_result (d : Daemon) (e : Env) (x : ExnClass) (r : Result Z) : Prop :=
  match r with
  | Ok c => d = NetCfgD /\ c = 3 /\ catches e std_exception x = true
  | Raise x' _ => x' = x /\ (d = NetCfgD -> catches e std_exception x = false)
  | Halt _ => False
  end.

(** Without idle checker, only a termination signal ends the loop. *)
Definition signals_only (tl : Timeline) (r : Result Z) (w' : World) : Prop :=
  idle (timeline w') = None /\
  (r = Ok 0 ->
   exists s, requests (timeline w') = requests tl ++ [request_of_signal s]).

(** What [serve] guarantees about its result [r], the calls [l] it made
    (newest first) and the world [w'] it leaves, when started at [tl]. *)
Definition serve_post (d : Daemon) (e : Env) (args : ParsedArgs) (tl : Timeline)
  (r : Result Z) (l : list Event) (w' : World) : Prop :=
  forallb (may_occur d args) l = true /\
  forallb (fun ev => negb (is_startup ev)) l = true /\
  (In EMainLoopRun l -> bootstrap_part (rev l) = orderly_bootstrap d args) /\
  (forall ev x, In ev l -> raises e ev = Some x -> raised_result d e x r) /\
  ((0 <? idle_wait_min d args) = false -> idle tl = None -> signals_only tl r w') /\
  match r with
  | Ok c =>
      (c = 0 /\ phase w' = Stopping /\ In EMainLoopRun l /\
       teardown_part (rev l) = orderly_teardown d args)
      \/
      (d = NetCfgD /\ c = 3 /\
       exists ev x, In ev l /\ raises e ev = Some x)
  | Raise x u =>
      forallb is_destroy u = true /\
      (exists ev, In ev l /\ raises e ev = Some x)
  | Halt h => In EMainLoopRun l
  end.

(** What [main] of configmgr makes of an exception that reaches it: both
    handlers return 2, any other exception leaves [main]. *)
Definition ConfigMgr_on_exception (e : Env) (x : ExnClass) : Outcome :=
  if catches e LogServiceProxyException x || catches e CommandArgBaseException x
  then Exit 2 else Terminate x.

(** What netcfg makes of an exception raised by the call [ev]: inside the
    [try] block of [netcfg_main] a [std::exception] gives 3; otherwise [main]
    turns a [CommandException] into 2, and any other exception leaves
    [main]. *)
Definition NetCfg_on_exception (e : Env) (ev : Event) (x : ExnClass) : Outcome :=
  if negb (is_startup ev) && catches e std_exception x then Exit 3
  else if catches e CommandException x then Exit 2 else Terminate x.

Definition is_log_writer (ev : Event) : bool :=
  match ev with ENewLogWriter _ _ => true | _ => false end.

(** netcfg insists on root and on a successful identity switch; configmgr
    starts under any identity. *)
Definition can_start (d : Daemon) (e : Env) : Prop :=
  match d with
  | ConfigMgrD => True
  | NetCfgD => getegid e = 0 /\ geteuid e = 0 /\ capng_change_id_result e = 0
  end.

(** More concrete inputs. *)
Definition with_change_id_result (r : Z) (e : Env) : Env :=
  {| throws := throws e; derives := derives e; DEBUG_OPTIONS := DEBUG_OPTIONS e;
     getegid := getegid e; geteuid := geteuid e; lookup_uid := lookup_uid e;
     lookup_gid := lookup_gid e; capng_change_id_result := r;
     default_poll_time := default_poll_time e; schedule := schedule e;
     teardown_time := teardown_time e |}.

Definition with_euid (u : Z) (e : Env) : Env :=
  {| throws := throws e; derives := derives e; DEBUG_OPTIONS := DEBUG_OPTIONS e;
     getegid := getegid e; geteuid := u; lookup_uid := lookup_uid e;
     lookup_gid := lookup_gid e;
     capng_change_id_result := capng_change_id_result e;
     default_poll_time := default_poll_time e; schedule := schedule e;
     teardown_time := teardown_time e |}.

(** [Setup()] of the payload service runs out of memory. *)
Definition setup_fails : Event -> option ExnClass :=
  fun ev => match ev with
            | ESetup => Some (OtherClass "std::bad_alloc")
            | _ => None
            end.

(** The logging relay refuses the attachment. *)
Definition attach_fails : Event -> option ExnClass :=
  fun ev => match ev with
            | EAttach _ => Some LogServiceProxyException
            | _ => None
            end.

Definition system_log : string := "/var/log/openvpn3-service.log".

(** ** More observations: arguments of the calls, start-up order *)

Definition is_open_log_file (ev : Event) : bool :=
  match ev with EOpenLogFile _ => true | _ => false end.

Definition is_state_dir (ev : Event) : bool :=
  match ev with ESetStateDirectory _ | EUmask => true | _ => false end.

Definition is_set_log_level (ev : Event) : bool :=
  match ev with ESetLogLevel _ | ESetDefaultLogLevel _ => true | _ => false end.

Definition is_idle_stop (ev : Event) : bool :=
  match ev with EIdleDisable | EIdleJoin => true | _ => false end.

Definition is_capng_apply (ev : Event) : bool :=
  match ev with ECapngApply => true | _ => false end.

Definition is_lookup (ev : Event) : bool :=
  match ev with ELookupUid | ELookupGid => true | _ => false end.

(** The part of a trace that follows the first event of a kind. *)
Fixpoint after_first (p : Event -> bool) (tr : list Event) : list Event :=
  match tr with
  | [] => []
  | ev :: r => if p ev then r else after_first p r
  end.

(** The destination [open_log_destination] derives from the file name. *)
Definition log_dest_of (f : string) : LogDest :=
  if String.eqb "stdout:" f then LogToStdout else LogToFile f.

Definition LogDest_eqb (a b : LogDest) : bool :=
  match a, b with
  | LogToFile f, LogToFile g => String.eqb f g
  | LogToStdout, LogToStdout => true
  | _, _ => false
  end.

Definition CapngType_eqb (a b : CapngType) : bool :=
  match a, b with
  | CAPNG_EFFECTIVE, CAPNG_EFFECTIVE | CAPNG_PERMITTED, CAPNG_PERMITTED => true
  | _, _ => false
  end.

Definition CapngFlag_eqb (a b : CapngFlag) : bool :=
  match a, b with
  | CAPNG_DROP_SUPP_GRP, CAPNG_DROP_SUPP_GRP
  | CAPNG_CLEAR_BOUNDING, CAPNG_CLEAR_BOUNDING => true
  | _, _ => false
  end.

Fixpoint same_list {A} (eqb : A -> A -> bool) (a b : list A) : bool :=
  match a, b with
  | [], [] => true
  | x :: a', y :: b' => eqb x y && same_list eqb a' b'
  | _, _ => false
  end.

Definition Capability_eqb (a b : Capability) : bool :=
  match a, b with CAP_NET_ADMIN, CAP_NET_ADMIN => true end.

(** The calls a run of daemon [d] can make, with the arguments they can
    have: what is passed to the collaborators is what the command line and
    the environment gave. *)
Definition call_allowed (d : Daemon) (e : Env) (args : ParsedArgs) (ev : Event)
  : bool :=
  let netcfg := match d with NetCfgD => true | ConfigMgrD => false end in
  match ev with
  | EOpenLogFile f =>
      match arg_log_file args with
      | Some g => String.eqb f g && negb (String.eqb "stdout:" g)
      | None => false
      end
  | ENewANSIColours =>
      match arg_log_file args with
      | Some _ => arg_colour args
      | None => false
      end
  | ENewLogWriter c dst =>
      match arg_log_file args with
      | Some g => Bool.eqb c (arg_colour args) && LogDest_eqb dst (log_dest_of g)
      | None => false
      end
  | ESetStateDirectory dir =>
      match d, arg_state_dir args with
      | ConfigMgrD, Some g => String.eqb dir g
      | _, _ => false
      end
  | EUmask =>
      match d, arg_state_dir args with
      | ConfigMgrD, Some _ => true
      | _, _ => false
      end
  | ESetLogLevel n => negb netcfg && (n =? ConfigMgr.log_level args)
  | ESetDefaultLogLevel n =>
      netcfg && (0 <? NetCfg.log_level args) && (n =? NetCfg.log_level args)
  | ENewIdleCheck m => m =? idle_wait_min d args
  | ESetPollTime s => netcfg && Nat.eqb s 30
  | EAttach i | EDetach i => String.eqb i (log_interface d)
  | ENewLogServiceProxy | EUsleep | ECout OutFatalError | ECapngClear
  | ECapngApply => netcfg
  | ECout OutError | ECout OutDebugDetails => negb netcfg
  | ECout (OutResult r) =>
      netcfg && (r =? capng_change_id_result e) && negb (0 =? r)
  | ECapngUpdateAdd ts c =>
      netcfg && negb (DEBUG_OPTIONS e && arg_disable_capabilities args)
      && same_list CapngType_eqb ts [CAPNG_EFFECTIVE; CAPNG_PERMITTED]
  | ELookupUid | ELookupGid =>
      netcfg && negb (DEBUG_OPTIONS e && arg_run_as_root args)
  | ECapngChangeId uid gid flags =>
      netcfg && negb (DEBUG_OPTIONS e && arg_run_as_root args)
      && (uid =? lookup_uid e) && (gid =? lookup_gid e)
      && same_list CapngFlag_eqb flags [CAPNG_DROP_SUPP_GRP; CAPNG_CLEAR_BOUNDING]
  | _ => true
  end.

Definition Object_eqb (a b : Object) : bool :=
  match a, b with
  | DBusObj, DBusObj | ConfigManagerDBusObj, ConfigManagerDBusObj
  | NetworkCfgServiceObj, NetworkCfgServiceObj => true
  | _, _ => false
  end.

(** The automatic objects alive after the calls of [tr], innermost first,
    starting from [live]: a constructor that returns adds its object, a
    destructor removes the innermost one.  [None] when a destructor runs for
    another object than the innermost one alive. *)
Fixpoint live_objects (e : Env) (live : list Object) (tr : list Event)
  : option (list Object) :=
  match tr with
  | [] => Some live
  | EConstruct o :: r =>
      live_objects e
        (match raises e (EConstruct o) with
         | None => o :: live
         | Some _ => live
         end) r
  | EDestroy o :: r =>
      match live with
      | o' :: live' => if Object_eqb o o' then live_objects e live' r else None
      | [] => None
      end
  | _ :: r => live_objects e live r
  end.

(** What [serve] guarantees about the calls [l] it made (newest first):
    their arguments, what a failing detach leaves undone, and the automatic
    objects it leaves alive: none when it returns, and when it raises those
    that the unwinding will destroy. *)
Definition serve_details (d : Daemon) (e : Env) (args : ParsedArgs)
  (r : Result Z) (l : list Event) : Prop :=
  forallb (call_allowed d e args) l = true /\
  (forall x,
     In (EDetach (log_interface d)) l ->
     raises e (EDetach (log_interface d)) = Some x ->
     none_of is_idle_stop l = true /\
     In EMainLoopUnref l /\
     ((0 <? idle_wait_min d args) = true -> In EIdleEnable l)) /\
  exists objs,
    live_objects e [] (rev l) = Some objs /\
    match r with
    | Ok _ => objs = []
    | Raise _ u => u = map EDestroy objs
    | Halt _ => True
    end.

(** The calls made before the command function is entered, and the
    messages. *)
Definition is_parse_stage (ev : Event) : bool :=
  match ev with
  | EDropRoot | ERunCommand | ECout _ => true
  | _ => false
  end.

(** The command line is refused. *)
Definition parse_fails : Event -> option ExnClass :=
  fun ev => match ev with
            | ERunCommand => Some CommandException
            | _ => None
            end.

(** At every [capng_apply] of the trace the capability state built up so
    far satisfies [ok]. *)
Fixpoint state_at_apply (ok : Capng.State -> bool) (s : Capng.State)
  (tr : list Event) : bool :=
  match tr with
  | [] => true
  | ev :: r =>
      (if is_capng_apply ev then ok s else true)
      && state_at_apply ok (Capng.step s ev) r
  end.

(** The capabilities netcfg means to keep: [CAP_NET_ADMIN], or none with
    the debug option [disable-capabilities]. *)
Definition kept_capabilities (e : Env) (args : ParsedArgs) : list Capability :=
  if DEBUG_OPTIONS e && arg_disable_capabilities args then [] else [CAP_NET_ADMIN].

Definition holds_exactly (caps : list Capability) (s : Capng.State) : bool :=
  same_list Capability_eqb (Capng.effective s) caps
  && same_list Capability_eqb (Capng.permitted s) caps.

(** The arguments without the two options that only a debug build has. *)
Definition clear_debug_flags (a : ParsedArgs) : ParsedArgs :=
  {| arg_log_level := arg_log_level a; arg_log_file := arg_log_file a;
     arg_colour := arg_colour a; arg_signal_broadcast := arg_signal_broadcast a;
     arg_idle_exit := arg_idle_exit a; arg_state_dir := arg_state_dir a;
     arg_disable_capabilities := false; arg_run_as_root := false |}.

(** A value [std::atoi] reads as 0 because it does not start with a
    number. *)
Definition no_leading_number (v : string) : bool :=
  match v with
  | EmptyString => true
  | String c _ =>
      negb (isspace c) && negb (Ascii.eqb c "-") && negb (Ascii.eqb c "+")
      && match digit_of c with Some _ => false | None => true end
  end.

(** Still more concrete inputs. *)
Definition with_colour (a : ParsedArgs) : ParsedArgs :=
  {| arg_log_level := arg_log_level a; arg_log_file := arg_log_file a;
     arg_colour := true; arg_signal_broadcast := arg_signal_broadcast a;
     arg_idle_exit := arg_idle_exit a; arg_state_dir := arg_state_dir a;
     arg_disable_capabilities := arg_disable_capabilities a;
     arg_run_as_root := arg_run_as_root a |}.

Definition with_log_level (v : string) (a : ParsedArgs) : ParsedArgs :=
  {| arg_log_level := Some v; arg_log_file := arg_log_file a;
     arg_colour := arg_colour a; arg_signal_broadcast := arg_signal_broadcast a;
     arg_idle_exit := arg_idle_exit a; arg_state_dir := arg_state_dir a;
     arg_disable_capabilities := arg_disable_capabilities a;
     arg_run_as_root := arg_run_as_root a |}.

Definition with_state_dir (v : string) (a : ParsedArgs) : ParsedArgs :=
  {| arg_log_level := arg_log_level a; arg_log_file := arg_log_file a;
     arg_colour := arg_colour a; arg_signal_broadcast := arg_signal_broadcast a;
     arg_idle_exit := arg_idle_exit a; arg_state_dir := Some v;
     arg_disable_capabilities := arg_disable_capabilities a;
     arg_run_as_root := arg_run_as_root a |}.

Definition with_debug_flags (caps_off as_root : bool) (a : ParsedArgs) : ParsedArgs :=
  {| arg_log_level := arg_log_level a; arg_log_file := arg_log_file a;
     arg_colour := arg_colour a; arg_signal_broadcast := arg_signal_broadcast a;
     arg_idle_exit := arg_idle_exit a; arg_state_dir := arg_state_dir a;
     arg_disable_capabilities := caps_off; arg_run_as_root := as_root |}.

Definition debug_build (e : Env) : Env :=
  {| throws := throws e; derives := derives e; DEBUG_OPTIONS := true;
     getegid := getegid e; geteuid := geteuid e; lookup_uid := lookup_uid e;
     lookup_gid := lookup_gid e;
     capng_change_id_result := capng_change_id_result e;
     default_poll_time := default_poll_time e; schedule := schedule e;
     teardown_time := teardown_time e |}.

(** The relay refuses the detach. *)
Definition detach_fails : Event -> option ExnClass :=
  fun ev => match ev with
            | EDetach _ => Some LogServiceProxyException
            | _ => None
            end.

(** The user [openvpn] does not exist. *)
Definition lookup_fails : Event -> option ExnClass :=
  fun ev => match ev with
            | ELookupUid => Some (OtherClass "LookupException")
            | _ => None
            end.

(** ** Runs that get through the start-up *)

(** The calls made before the log destination is opened do not raise, and
    netcfg is started as root: the command function gets to its log
    set-up. *)
Definition reaches_log_setup (d : Daemon) (e : Env) : Prop :=
  match d with
  | ConfigMgrD =>
      throws e EDropRoot = None /\ throws e ERunCommand = None /\
      throws e (ECout OutVersion) = None
  | NetCfgD =>
      throws e ERunCommand = None /\ getegid e = 0 /\ geteuid e = 0
  end.

(** The log set-up calls of a run with [log-file f], in order. *)
Definition log_setup_calls (f : string) (args : ParsedArgs) : list Event :=
  (if String.eqb "stdout:" f then [] else [EOpenLogFile f])
  ++ (if arg_colour args then [ENewANSIColours] else [])
  ++ [ENewLogWriter (arg_colour args) (log_dest_of f)].


(** * Proofs *)

(** ** Lists and traces *)

Lemma forallb_rev {A} (p : A -> bool) (l : list A) :
  forallb p (rev l) = forallb p l.
Proof.
  induction l as [|a l IH]; [reflexivity|].
  simpl. rewrite forallb_app, IH. simpl. rewrite andb_true_r. apply andb_comm.
Qed.

Lemma forallb_member {A} (p : A -> bool) (l : list A) (a : A) :
  forallb p l = true -> In a l -> p a = true.
Proof.
  intros H. now apply forallb_forall.
Qed.

Lemma bootstrap_part_app_hit (a b : list Event) :
  In EMainLoopRun a -> bootstrap_part (a ++ b) = bootstrap_part a.
Proof.
  induction a as [|ev a IH]; intros Hin; [destruct Hin|].
  simpl. destruct (is_loop_run ev) eqn:Hev; [reflexivity|].
  destruct Hin as [->|Hin]; [discriminate Hev|]. now rewrite IH.
Qed.

Lemma destroy_not_loop_run (u : list Event) :
  forallb is_destroy u = true -> ~ In EMainLoopRun u.
Proof.
  intros Hu Hin. apply (forallb_member _ _ _ Hu) in Hin. discriminate Hin.
Qed.

Lemma may_occur_destroy d args ev :
  is_destroy ev = true -> may_occur d args ev = true.
Proof.
  destruct ev; try discriminate; reflexivity.
Qed.

Lemma none_of_spec (p : Event -> bool) (tr : list Event) :
  none_of p tr = true <-> forall ev, In ev tr -> p ev = false.
Proof.
  unfold none_of. rewrite negb_true_iff. split.
  - intros H ev Hin. destruct (p ev) eqn:Hp; [|reflexivity].
    assert (existsb p tr = true) by (apply existsb_exists; eauto). congruence.
  - intros H. destruct (existsb p tr) eqn:Hex; [|reflexivity].
    apply existsb_exists in Hex. destruct Hex as (ev & Hin & Hp).
    rewrite (H ev Hin) in Hp. discriminate.
Qed.

Lemma none_of_excluded (p q : Event -> bool) (tr : list Event) :
  (forall ev, p ev = true -> q ev = false) ->
  forallb p tr = true -> none_of q tr = true.
Proof.
  intros Hpq Hp. apply none_of_spec. intros ev Hin.
  apply Hpq. exact (forallb_member _ _ _ Hp Hin).
Qed.

Lemma filter_excluded (p q : Event -> bool) (tr : list Event) :
  (forall ev, p ev = true -> q ev = false) ->
  forallb p tr = true -> filter q tr = [].
Proof.
  intros Hpq. induction tr as [|ev tr IH]; [reflexivity|].
  simpl. intros H. apply andb_prop in H. destruct H as [Hev Htr].
  rewrite (Hpq ev Hev). auto.
Qed.

Lemma preceded_from_seen (pa pb : Event -> bool) (tr : list Event) :
  preceded_from true pa pb tr = true.
Proof.
  induction tr as [|ev tr IH]; [reflexivity|].
  simpl. rewrite IH. now destruct (pb ev).
Qed.

Lemma preceded_without (seen : bool) (pa pb : Event -> bool) (tr : list Event) :
  (forall ev, In ev tr -> pb ev = false) ->
  preceded_from seen pa pb tr = true.
Proof.
  revert seen. induction tr as [|ev tr IH]; intros seen H; [reflexivity|].
  simpl. rewrite (H ev (or_introl eq_refl)). apply IH.
  intros ev' Hin. apply H. now right.
Qed.

Lemma preceded_from_app (seen : bool) (pa pb : Event -> bool) (x y : list Event) :
  preceded_from seen pa pb (x ++ y) =
  preceded_from seen pa pb x && preceded_from (seen || existsb pa x) pa pb y.
Proof.
  revert seen. induction x as [|ev x IH]; intros seen; simpl.
  - now rewrite orb_false_r.
  - rewrite IH, orb_assoc, andb_assoc. reflexivity.
Qed.

Lemma split_at_loop (tr : list Event) :
  In EMainLoopRun tr ->
  tr = bootstrap_part tr ++ EMainLoopRun :: teardown_part tr.
Proof.
  induction tr as [|ev tr IH]; intros Hin; [destruct Hin|].
  simpl. destruct (is_loop_run ev) eqn:Hev.
  - destruct ev; try discriminate Hev. reflexivity.
  - destruct Hin as [->|Hin]; [discriminate Hev|].
    simpl. now rewrite <- IH.
Qed.

(** ** The loop without watchdog *)

Lemma loop_without_watchdog h sched : forall t le t1,
  idle t = None ->
  loop_iterate h sched t = (le, t1) ->
  idle t1 = None /\
  (le = LoopQuit ->
   exists s, requests t1 = requests t ++ [request_of_signal s]).
Proof.
  induction sched as [|sl rest IH]; intros t le t1 Hidle Hrun; simpl in Hrun.
  - injection Hrun as <- <-. split; [assumption | discriminate].
  - unfold advance in Hrun. rewrite Hidle in Hrun.
    destruct (slot_signal sl) as [s|].
    + destruct (signal_handled s h t); injection Hrun as <- <-; simpl.
      * split; [reflexivity|]. intros _. now exists s.
      * split; [reflexivity | discriminate].
    + apply IH in Hrun; [|reflexivity]. exact Hrun.
Qed.

(** ** Symbolic execution of the two programs *)

Ltac unfold_top :=
  cbv beta iota zeta delta
    [run idle_wait_min log_interface service_object
     ConfigMgr.main ConfigMgr.main_body ConfigMgr.config_manager
     NetCfg.main NetCfg.main_body NetCfg.netcfg_main NetCfg.drop_root_ng
     NetCfg.capng_add_net_admin NetCfg.restrict_privileges
     RunCommand open_log_destination with_local try_catch
     new_IdleCheck IdleCheck_SetPollTime IdleCheck_Enable IdleCheck_Disable
     IdleCheck_Join update_idle update_timeline g_main_loop_run g_unix_signal_add
     bind ret call call_c ask throw finish init_world
     record_event record_events set_handlers set_phase set_timeline
     env events handlers phase timeline fst snd];
  cbn [negb orb andb app rev].

Ltac unfold_prog :=
  cbv beta iota delta [serve ConfigMgr.serve NetCfg.serve];
  unfold_top.

(** One branching point of the program: a call that may raise, the loop, a
    handler that may match, a condition on the arguments. *)
Ltac step :=
  match goal with
  | |- context [throws ?e ?ev] =>
      let H := fresh "Hthrow" in destruct (throws e ev) eqn:H
  | |- context [loop_iterate ?h ?s ?t] =>
      let H := fresh "Hloop" in
      let t1 := fresh "t" in
      destruct (loop_iterate h s t) as [[|?] t1] eqn:H
  | |- context [catches ?e ?c ?x] =>
      let H := fresh "Hcatch" in destruct (catches e c x) eqn:H
  | |- context [match arg_log_file ?a with _ => _ end] =>
      let H := fresh "Hlf" in destruct (arg_log_file a) eqn:H
  | |- context [match arg_state_dir ?a with _ => _ end] =>
      let H := fresh "Hsd" in destruct (arg_state_dir a) eqn:H
  | |- context [negb ?b] =>
      let H := fresh "Hif" in destruct b eqn:H
  | |- context [if ?b then _ else _] =>
      let H := fresh "Hif" in destruct b eqn:H
  end.

Ltac rewrite_conds :=
  repeat match goal with
  | H : ?x = true |- context [?x] => rewrite H
  | H : ?x = false |- context [?x] => rewrite H
  | H : arg_state_dir ?a = _ |- context [arg_state_dir ?a] => rewrite H
  | H : arg_log_file ?a = _ |- context [arg_log_file ?a] => rewrite H
  end.

Ltac prefix_of t tl :=
  match t with
  | tl => constr:(@nil Event)
  | ?a :: ?r => let p := prefix_of r tl in constr:(a :: p)
  end.

Ltac give_prefix :=
  match goal with
  | |- exists l, ?t = l ++ ?tl /\ _ =>
      let p := prefix_of t tl in exists p; split; [reflexivity|]
  end.

(** The call that raised. *)
Ltac blame :=
  match goal with
  | H : throws _ ?ev = Some ?x |- exists ev', In ev' _ /\ raises _ ev' = Some _ =>
      exists ev; split; [simpl; tauto | exact H]
  | H : throws _ ?ev = Some ?x |- exists ev' x', _ =>
      exists ev, x; split; [simpl; tauto | exact H]
  end.

Ltac enter_leaf Post :=
  subst Post; cbv beta; cbn [fst snd events env phase timeline].

Ltac in_cases :=
  let Hin := fresh "Hin" in
  intros Hin; simpl in Hin;
  repeat (destruct Hin as [Hin|Hin]; [try discriminate Hin|]);
  try contradiction; try reflexivity.

(** Membership of an event in a trace made of known calls and of segments
    known by their properties. *)
Ltac member_cases Hin :=
  repeat match type of Hin with
  | In _ (_ :: _) =>
      destruct Hin as [Hin|Hin];
      [try (subst; reflexivity); try discriminate Hin|]
  | In _ (_ ++ _) => apply in_app_or in Hin; destruct Hin as [Hin|Hin]
  | In _ [] => destruct Hin
  end.

(** A call of the trace is claimed to have raised: it is the one that did. *)
Ltac who_raised :=
  let ev := fresh "ev" in let x := fresh "x" in
  let Hin := fresh "Hin" in let Hr := fresh "Hr" in
  intros ev x Hin Hr; simpl in Hin;
  repeat (destruct Hin as [Hin|Hin];
          [ subst ev; unfold raises in Hr; cbn [is_c_call] in Hr;
            first [ discriminate Hr
                  | match type of Hr with
                    | throws ?e ?c = Some _ =>
                        match goal with
                        | H : throws e c = None |- _ =>
                            rewrite H in Hr; discriminate Hr
                        | H : throws e c = Some _ |- _ =>
                            rewrite H in Hr; injection Hr as <-
                        end
                    end ] | ]);
  try contradiction.

Ltac close_signals_only no_watchdog :=
  let H0 := fresh "H0" in let Hidle := fresh "Hidle" in
  intros H0 Hidle; unfold signals_only; cbn [timeline idle requests];
  first
    [ congruence
    | match goal with
      | Hloop : loop_iterate _ _ _ = _ |- _ =>
          apply no_watchdog in Hloop; [|exact Hidle];
          destruct Hloop as [Hi Hq]; split; [exact Hi|];
          first [ intros _; exact (Hq eq_refl) | discriminate ]
      end
    | split; [exact Hidle | discriminate] ].

Ltac close_serve_leaf no_watchdog :=
  rewrite_conds;
  cbn [negb app rev forallb andb orb is_destroy bootstrap_part teardown_part
       is_loop_run is_startup is_privilege is_log_setup];
  split; [reflexivity|];
  split; [reflexivity|];
  split; [in_cases|];
  split; [who_raised; unfold raised_result;
          repeat split; intros; first [assumption | reflexivity | discriminate]|];
  split; [close_signals_only no_watchdog|];
  first
    [ left; split; [reflexivity|]; split; [reflexivity|];
      split; [simpl; tauto | reflexivity]
    | right; split; [reflexivity|]; split; [reflexivity|]; blame
    | split; [reflexivity|]; blame
    | simpl; tauto ].

Lemma serve_behaviour d e args tr0 tl r w' :
  serve d args
    {| env := e; events := tr0; handlers := []; phase := Bootstrap;
       timeline := tl |} = (r, w') ->
  exists l, events w' = l ++ tr0 /\ env w' = e /\ serve_post d e args tl r l w'.
Proof.
  intros Hs.
  pose (Post := fun rw : Result Z * World =>
     exists l, events (snd rw) = l ++ tr0 /\ env (snd rw) = e /\
               serve_post d e args tl (fst rw) l (snd rw)).
  change (Post (r, w')). rewrite <- Hs. clear Hs r w'.
  destruct d.
  - unfold_prog; repeat (step; unfold_prog).
    all: enter_leaf Post; give_prefix; split; [reflexivity|].
    all: unfold serve_post, orderly_bootstrap, orderly_teardown, may_occur,
           idle_wait_min, log_interface, service_object.
    all: close_serve_leaf loop_without_watchdog.
  - unfold_prog; repeat (step; unfold_prog).
    all: enter_leaf Post; give_prefix; split; [reflexivity|].
    all: unfold serve_post, orderly_bootstrap, orderly_teardown, may_occur,
           idle_wait_min, log_interface, service_object.
    all: close_serve_leaf loop_without_watchdog.
Qed.

(** ** Whole runs *)

Ltac unfold_joined :=
  cbv beta iota zeta delta
    [run ConfigMgr.main ConfigMgr.main_body ConfigMgr.config_manager
     NetCfg.main NetCfg.main_body NetCfg.netcfg_main
     RunCommand try_catch
     bind ret call call_c ask throw finish
     record_event record_events set_handlers set_phase set_timeline
     env events handlers phase timeline fst snd];
  cbn [negb orb andb].

(** At the bus connection the run continues with [serve], whose behaviour
    is known. *)
Ltac join_serve behaviour :=
  match goal with
  | |- context [serve ?d ?a ?W] =>
      let r := fresh "r" in let w' := fresh "w'" in let Hs := fresh "Hs" in
      let l := fresh "l" in let Hev := fresh "Hev" in let Henv := fresh "Henv" in
      let Hocc := fresh "Hocc" in let Hnop := fresh "Hnop" in
      let Hboot := fresh "Hboot" in let Hres := fresh "Hres" in
      let Hfwd := fresh "Hfwd" in let Hsig := fresh "Hsig" in
      let c := fresh "c" in let ph := fresh "ph" in
      let Hd := fresh "Hd" in let Hph := fresh "Hph" in
      let Hrun := fresh "Hrun" in let Htd := fresh "Htd" in
      let Hbl := fresh "Hbl" in let Hc := fresh "Hc" in
      let Hu := fresh "Hu" in
      destruct (serve d a W) as [r w'] eqn:Hs;
      apply behaviour in Hs;
      destruct Hs as (l & Hev & Henv & Hocc & Hnop & Hboot & Hfwd & Hsig & Hres);
      destruct w' as [? ? ? ph ?];
      cbn [events env phase timeline] in Hev, Henv, Hres, Hsig; subst;
      destruct r as [c| |];
      [ destruct Hres as [(Hc & Hph & Hrun & Htd) | (Hd & Hc & Hbl)];
        [ subst c ph | try discriminate Hd; subst c ]
      | destruct Hres as (Hu & Hbl)
      | ]
  end.

Ltac step_joined :=
  match goal with
  | |- context [catches ?e ?c ?x] =>
      let H := fresh "Hcatch" in destruct (catches e c x) eqn:H
  end.

Ltac step_known :=
  match goal with
  | |- context [catches ?e ?c ?c] => change (catches e c c) with true
  end.

(** Run a whole daemon: the start-up calls one by one, rewriting with the
    hypotheses at hand ([pre]) after every step, then [serve], whose
    behaviour is given by [behaviour]. *)
Ltac top_exec_with behaviour pre :=
  unfold run, ConfigMgr.main, ConfigMgr.main_body, ConfigMgr.config_manager,
    NetCfg.main, NetCfg.main_body, NetCfg.netcfg_main;
  change ConfigMgr.serve with (serve ConfigMgrD);
  change NetCfg.serve with (serve NetCfgD);
  unfold_top; pre; unfold_top;
  repeat (first [step_known | step]; unfold_top; pre; unfold_top);
  try (join_serve behaviour; unfold_joined; repeat (step_joined; unfold_joined)).

Ltac normalise_trace :=
  unfold trace; cbn [events rev];
  rewrite ?rev_app_distr, ?rev_involutive; cbn [rev app];
  rewrite <- ?app_assoc; cbn [app].

Ltac solve_occ member destroy_ok :=
  let ev := fresh "ev" in let Hin := fresh "Hin" in
  apply forallb_forall; intros ev Hin; member_cases Hin;
  first
    [ match goal with
      | Hocc : forallb (may_occur _ _) ?l = true |- _ =>
          apply in_rev in Hin; exact (member _ _ _ Hocc Hin)
      end
    | match goal with
      | Hu : forallb is_destroy ?u = true |- _ =>
          exact (destroy_ok _ _ _ (member _ _ _ Hu Hin))
      end ].

Ltac loop_was_run not_in_unwind :=
  match goal with
  | H : In EMainLoopRun ?l |- In EMainLoopRun ?l => exact H
  | Hin : In EMainLoopRun _ |- In EMainLoopRun ?l =>
      member_cases Hin;
      first
        [ apply in_rev in Hin; exact Hin
        | match goal with
          | Hu : forallb is_destroy ?u = true |- _ =>
              exfalso; exact (not_in_unwind u Hu Hin)
          end ]
  end.

Ltac solve_boot app_hit not_in_unwind :=
  let Hin := fresh "Hin" in
  intros Hin;
  match goal with
  | Hboot : In EMainLoopRun ?l -> bootstrap_part (rev ?l) = _ |- _ =>
      let Hl := fresh "Hl" in
      assert (Hl : In EMainLoopRun l) by loop_was_run not_in_unwind;
      cbn [bootstrap_part is_loop_run];
      rewrite ?(app_hit (rev l)) by (apply -> in_rev; exact Hl);
      rewrite (Hboot Hl);
      give_prefix; reflexivity
  end.

Ltac solve_orderly :=
  first
    [ discriminate
    | intros _; split; [reflexivity|]; split;
      [ repeat (apply in_cons); apply -> in_rev; assumption
      | cbn [teardown_part is_loop_run]; assumption ] ].

Ltac solve_signals :=
  let H0 := fresh "H0" in
  intros H0;
  match goal with
  | Hsig : _ -> _ -> signals_only _ _ _ |- _ =>
      destruct (Hsig H0 eq_refl) as [Hi Hq]; cbn [timeline] in Hi, Hq;
      split; [exact Hi|];
      first [ discriminate | intros _; exact (Hq eq_refl) ]
  end.

(** Every run of either daemon: which calls it can contain, what it did
    before the loop if it got there, and what an orderly exit looks like. *)
Lemma run_behaviour d e args :
  forallb (may_occur d args) (trace (snd (run d e args))) = true /\
  (In EMainLoopRun (trace (snd (run d e args))) ->
   exists pro,
     bootstrap_part (trace (snd (run d e args))) = pro ++ orderly_bootstrap d args /\
     forallb is_prologue pro = true) /\
  (fst (run d e args) = Exit 0 ->
   phase (snd (run d e args)) = Stopped /\
   In EMainLoopRun (trace (snd (run d e args))) /\
   teardown_part (trace (snd (run d e args))) = orderly_teardown d args) /\
  ((0 <? idle_wait_min d args) = false ->
   idle (timeline (snd (run d e args))) = None /\
   (fst (run d e args) = Exit 0 ->
    exists s, requests (timeline (snd (run d e args))) = [request_of_signal s])).
Proof.
  pose (Post := fun rw : Outcome * World =>
    forallb (may_occur d args) (trace (snd rw)) = true /\
    (In EMainLoopRun (trace (snd rw)) ->
     exists pro,
       bootstrap_part (trace (snd rw)) = pro ++ orderly_bootstrap d args /\
       forallb is_prologue pro = true) /\
    (fst rw = Exit 0 ->
     phase (snd rw) = Stopped /\ In EMainLoopRun (trace (snd rw)) /\
     teardown_part (trace (snd rw)) = orderly_teardown d args) /\
    ((0 <? idle_wait_min d args) = false ->
     idle (timeline (snd rw)) = None /\
     (fst rw = Exit 0 ->
      exists s, requests (timeline (snd rw)) = [request_of_signal s]))).
  change (Post (run d e args)).
  destruct d; top_exec_with serve_behaviour idtac.
  all: enter_leaf Post; normalise_trace.
  all: try solve [split; [reflexivity|]; split; [in_cases|];
                  split; [discriminate|];
                  intros _; split; [reflexivity | discriminate]].
  all: split; [solve_occ (@forallb_member Event) may_occur_destroy|].
  all: split; [solve_boot bootstrap_part_app_hit destroy_not_loop_run|].
  all: split; [solve_orderly|].
  all: solve_signals.
Qed.

Lemma nothing_raises (e : Env) (ev : Event) (x : ExnClass) :
  (forall ev, throws e ev = None) -> raises e ev = Some x -> False.
Proof.
  intros Hnf. unfold raises. rewrite Hnf. now destruct (is_c_call ev).
Qed.

Ltac reached_loop quiet :=
  match goal with
  | Hbl : exists ev x, In ev _ /\ raises _ ev = Some x |- _ =>
      exfalso; destruct Hbl as (? & ? & _ & Hbl); exact (quiet _ _ Hbl)
  | Hbl : exists ev, In ev _ /\ raises _ ev = Some _ |- _ =>
      exfalso; destruct Hbl as (? & _ & Hbl); exact (quiet _ _ Hbl)
  | H : In EMainLoopRun ?l |- _ =>
      split;
      [ repeat (apply in_cons);
        first [ apply -> in_rev; exact H
              | apply in_or_app; left; apply -> in_rev; exact H ]
      | first [ left; reflexivity | right; eexists; reflexivity ] ]
  end.

(** When no call raises and the daemon can start, the run reaches the loop;
    it then ends with 0, unless the loop has not returned. *)
Lemma undisturbed_run_reaches_loop (d : Daemon) (e : Env) (args : ParsedArgs) :
  (forall ev, throws e ev = None) ->
  can_start d e ->
  In EMainLoopRun (trace (snd (run d e args))) /\
  (fst (run d e args) = Exit 0 \/ exists h, fst (run d e args) = Halted h).
Proof.
  intros Hnf Hstart.
  pose (Post := fun rw : Outcome * World =>
    In EMainLoopRun (trace (snd rw)) /\
    (fst rw = Exit 0 \/ exists h, fst rw = Halted h)).
  change (Post (run d e args)).
  destruct d; cbn [can_start] in Hstart.
  - top_exec_with serve_behaviour ltac:(rewrite ?Hnf).
    all: enter_leaf Post; normalise_trace.
    all: reached_loop (fun ev x => nothing_raises e ev x Hnf).
  - destruct Hstart as (Hg & Hu & Hc).
    top_exec_with serve_behaviour
      ltac:(rewrite ?Hnf, ?Hg, ?Hu, ?Hc; change (0 =? 0) with true).
    all: enter_leaf Post; normalise_trace.
    all: reached_loop (fun ev x => nothing_raises e ev x Hnf).
Qed.

(** ** Teardown *)

(** C2 (amended).  On an orderly exit of either daemon the calls after the
    loop are, in this order: (netcfg only: a short sleep,) the release of the
    loop object, the detach from the logging relay if attached, [Disable]
    then [Join] of the idle checker if the threshold is positive, and only
    then, at the end of the scope, the release of the service object and of
    the bus connection.  So with a positive threshold the idle checker is
    joined before the bus connection is released, but after the loop object
    is. *)
Theorem orderly_teardown_order (d : Daemon) (e : Env) (args : ParsedArgs) :
  fst (run d e args) = Exit 0 ->
  teardown_part (trace (snd (run d e args))) =
    match d with ConfigMgrD => [] | NetCfgD => [EUsleep] end
    ++ [EMainLoopUnref]
    ++ (if arg_signal_broadcast args then [] else [EDetach (log_interface d)])
    ++ (if 0 <? idle_wait_min d args then [EIdleDisable; EIdleJoin] else [])
    ++ [EDestroy (service_object d); EDestroy DBusObj] /\
  ((0 <? idle_wait_min d args) = true ->
   always_preceded is_idle_join is_bus_release (trace (snd (run d e args))) = true).
Proof.
  intros Hexit.
  destruct (run_behaviour d e args) as (_ & Hboot & Hord & _).
  destruct (Hord Hexit) as (_ & Hrun & Htd).
  split; [exact Htd|].
  intros Hidle.
  destruct (Hboot Hrun) as (pro & Hpro & Hall).
  rewrite (split_at_loop _ Hrun), Hpro, Htd.
  unfold always_preceded. rewrite preceded_from_app.
  apply andb_true_intro. split.
  - apply preceded_without. intros ev Hin.
    apply in_app_or in Hin. destruct Hin as [Hin|Hin].
    + pose proof (forallb_member _ _ _ Hall Hin) as Hp.
      destruct ev; first [reflexivity | discriminate Hp].
    + assert (Hb : forallb (fun ev => negb (is_bus_release ev))
                     (orderly_bootstrap d args) = true).
      { unfold orderly_bootstrap.
        destruct d; destruct (arg_signal_broadcast args);
          destruct (arg_state_dir args);
          destruct (0 <? NetCfg.log_level args);
          destruct (0 <? ConfigMgr.idle_wait_min args);
          destruct (0 <? NetCfg.idle_wait_min args); reflexivity. }
      apply negb_true_iff. exact (forallb_member _ _ _ Hb Hin).
  - unfold orderly_teardown. rewrite Hidle.
    destruct d; destruct (arg_signal_broadcast args); simpl;
      rewrite ?orb_true_r; reflexivity.
Qed.

Lemma orderly_teardown_order_witness :
  teardown_part (trace (snd (run NetCfgD calm_env one_minute))) =
    [EUsleep; EMainLoopUnref; EDetach OpenVPN3DBus_interf_netcfg;
     EIdleDisable; EIdleJoin; EDestroy NetworkCfgServiceObj; EDestroy DBusObj] /\
  always_preceded is_idle_join is_bus_release
    (trace (snd (run NetCfgD calm_env one_minute))) = true.
Proof.
  assert (Hexit : fst (run NetCfgD calm_env one_minute) = Exit 0)
    by (vm_compute; reflexivity).
  split.
  - apply (proj1 (orderly_teardown_order NetCfgD calm_env one_minute Hexit)).
  - apply (proj2 (orderly_teardown_order NetCfgD calm_env one_minute Hexit)).
    reflexivity.
Defined.

(** C2 as stated fails: in an orderly run with the idle checker enabled the
    loop object is released before the idle checker is disabled and joined,
    in both daemons. *)
Lemma loop_released_before_watchdog_joined :
  fst (run ConfigMgrD calm_env one_minute) = Exit 0 /\
  fst (run NetCfgD calm_env one_minute) = Exit 0 /\
  teardown_part (trace (snd (run ConfigMgrD calm_env one_minute))) =
    [EMainLoopUnref; EDetach OpenVPN3DBus_interf_configuration;
     EIdleDisable; EIdleJoin; EDestroy ConfigManagerDBusObj; EDestroy DBusObj] /\
  always_preceded is_idle_join is_loop_unref
    (trace (snd (run ConfigMgrD calm_env one_minute))) = false /\
  always_preceded is_idle_join is_loop_unref
    (trace (snd (run NetCfgD calm_env one_minute))) = false.
Proof.
  vm_compute. repeat split; reflexivity.
Qed.

(** ** Logging relay *)

(** C8.  In broadcast mode no run of either daemon attaches to or detaches
    from the logging relay.  In unicast mode every run that reaches the loop
    has attached once before it, an orderly run detaches once, from the same
    interface, after the loop, and such runs exist for both daemons: when no
    call raises and the daemon can start, the run reaches the loop, and once
    the loop has returned it ends with 0. *)
Theorem relay_attachment_follows_signalling_mode
  (d : Daemon) (e : Env) (args : ParsedArgs) :
  (arg_signal_broadcast args = true ->
   none_of is_attach (trace (snd (run d e args))) = true /\
   none_of is_detach (trace (snd (run d e args))) = true) /\
  (arg_signal_broadcast args = false ->
   fst (run d e args) = Exit 0 ->
   filter is_relay (bootstrap_part (trace (snd (run d e args)))) =
     [EAttach (log_interface d)] /\
   filter is_relay (teardown_part (trace (snd (run d e args)))) =
     [EDetach (log_interface d)]) /\
  (arg_signal_broadcast args = false ->
   In EMainLoopRun (trace (snd (run d e args))) ->
   filter is_relay (bootstrap_part (trace (snd (run d e args)))) =
     [EAttach (log_interface d)]) /\
  (arg_signal_broadcast args = false ->
   (forall ev, throws e ev = None) ->
   can_start d e ->
   In EMainLoopRun (trace (snd (run d e args))) /\
   filter is_relay (bootstrap_part (trace (snd (run d e args)))) =
     [EAttach (log_interface d)] /\
   ((forall h, fst (run d e args) <> Halted h) ->
    fst (run d e args) = Exit 0 /\
    filter is_relay (teardown_part (trace (snd (run d e args)))) =
      [EDetach (log_interface d)])).
Proof.
  destruct (run_behaviour d e args) as (Hocc & Hboot & Hord & _).
  assert (Hatt : arg_signal_broadcast args = false ->
                 In EMainLoopRun (trace (snd (run d e args))) ->
                 filter is_relay (bootstrap_part (trace (snd (run d e args)))) =
                   [EAttach (log_interface d)]).
  { intros Hb Hrun.
    destruct (Hboot Hrun) as (pro & Hpro & Hall).
    rewrite Hpro, filter_app.
    rewrite (filter_excluded is_prologue is_relay pro)
      by (try exact Hall; intros ev; destruct ev; simpl;
          first [reflexivity | discriminate]).
    unfold orderly_bootstrap.
    destruct d; cbn [idle_wait_min log_interface service_object];
      rewrite Hb;
      destruct (arg_state_dir args);
      destruct (0 <? NetCfg.log_level args);
      destruct (0 <? ConfigMgr.idle_wait_min args);
      destruct (0 <? NetCfg.idle_wait_min args); reflexivity. }
  assert (Hdet : arg_signal_broadcast args = false ->
                 fst (run d e args) = Exit 0 ->
                 filter is_relay (teardown_part (trace (snd (run d e args)))) =
                   [EDetach (log_interface d)]).
  { intros Hb Hexit.
    destruct (Hord Hexit) as (_ & _ & Htd).
    rewrite Htd. unfold orderly_teardown.
    destruct d; cbn [idle_wait_min log_interface service_object];
      rewrite Hb;
      destruct (0 <? ConfigMgr.idle_wait_min args);
      destruct (0 <? NetCfg.idle_wait_min args); reflexivity. }
  split; [|split; [|split]].
  - intros Hb.
    split; apply (none_of_excluded (may_occur d args)); try exact Hocc;
      intros ev; destruct ev; simpl; rewrite ?Hb; simpl;
      first [reflexivity | discriminate].
  - intros Hb Hexit.
    destruct (Hord Hexit) as (_ & Hrun & _).
    split; [exact (Hatt Hb Hrun) | exact (Hdet Hb Hexit)].
  - exact Hatt.
  - intros Hb Hnf Hstart.
    destruct (undisturbed_run_reaches_loop d e args Hnf Hstart) as (Hrun & Hend).
    split; [exact Hrun|]. split; [exact (Hatt Hb Hrun)|].
    intros Hret.
    destruct Hend as [Hexit | (h & Hh)]; [|exfalso; exact (Hret h Hh)].
    split; [exact Hexit | exact (Hdet Hb Hexit)].
Qed.

Lemma relay_attachment_follows_signalling_mode_witness :
  (none_of is_attach
     (trace (snd (run ConfigMgrD calm_env (with_broadcast one_minute)))) = true /\
   none_of is_detach
     (trace (snd (run ConfigMgrD calm_env (with_broadcast one_minute)))) = true) /\
  (none_of is_attach
     (trace (snd (run NetCfgD calm_env (with_broadcast one_minute)))) = true /\
   none_of is_detach
     (trace (snd (run NetCfgD calm_env (with_broadcast one_minute)))) = true) /\
  (filter is_relay
     (bootstrap_part (trace (snd (run ConfigMgrD calm_env one_minute)))) =
     [EAttach OpenVPN3DBus_interf_configuration] /\
   filter is_relay
     (teardown_part (trace (snd (run ConfigMgrD calm_env one_minute)))) =
     [EDetach OpenVPN3DBus_interf_configuration]) /\
  (In EMainLoopRun (trace (snd (run NetCfgD calm_env one_minute))) /\
   filter is_relay
     (bootstrap_part (trace (snd (run NetCfgD calm_env one_minute)))) =
     [EAttach OpenVPN3DBus_interf_netcfg] /\
   fst (run NetCfgD calm_env one_minute) = Exit 0 /\
   filter is_relay
     (teardown_part (trace (snd (run NetCfgD calm_env one_minute)))) =
     [EDetach OpenVPN3DBus_interf_netcfg]).
Proof.
  split; [|split; [|split]].
  - apply (proj1 (relay_attachment_follows_signalling_mode
                    ConfigMgrD calm_env (with_broadcast one_minute))).
    reflexivity.
  - apply (proj1 (relay_attachment_follows_signalling_mode
                    NetCfgD calm_env (with_broadcast one_minute))).
    reflexivity.
  - apply (proj1 (proj2 (relay_attachment_follows_signalling_mode
                           ConfigMgrD calm_env one_minute))).
    + reflexivity.
    + vm_compute; reflexivity.
  - destruct (proj2 (proj2 (proj2 (relay_attachment_follows_signalling_mode
                                     NetCfgD calm_env one_minute)))
                eq_refl (fun ev => eq_refl)
                (conj eq_refl (conj eq_refl eq_refl)))
      as (Hrun & Hatt & Hret).
    split; [exact Hrun|]. split; [exact Hatt|].
    apply Hret. intros h Hh. vm_compute in Hh. discriminate Hh.
Defined.

(** ** Idle checker and signal handlers *)

Lemma positive_threshold (z : Z) : 0 < z -> (0 <? z) = true.
Proof.
  intros H. now apply Z.ltb_lt.
Qed.

Lemma zero_threshold (z : Z) : z = 0 -> (0 <? z) = false.
Proof.
  intros ->. reflexivity.
Qed.

(** C7.  With an idle-exit threshold of 0 no run of either daemon constructs,
    hands over, enables, disables or joins an idle checker, no such object
    exists, and an orderly exit was requested by a termination signal and by
    nothing else.  With a positive threshold every run that reaches the loop
    has constructed the idle checker, handed it to the payload service and
    enabled it, in this order, before the loop runs; and both daemons have
    such runs: when no call raises and the daemon can start, the run reaches
    the loop. *)
Theorem idle_exit_zero_disables_watchdog (d : Daemon) (e : Env) (args : ParsedArgs) :
  (idle_wait_min d args = 0 ->
   none_of is_watchdog (trace (snd (run d e args))) = true /\
   idle (timeline (snd (run d e args))) = None /\
   (fst (run d e args) = Exit 0 ->
    exists s, requests (timeline (snd (run d e args))) = [request_of_signal s])) /\
  (0 < idle_wait_min d args ->
   In EMainLoopRun (trace (snd (run d e args))) ->
   filter is_watchdog (bootstrap_part (trace (snd (run d e args)))) =
     [ENewIdleCheck (idle_wait_min d args)]
     ++ match d with ConfigMgrD => [] | NetCfgD => [ESetPollTime 30] end
     ++ [EEnableIdleCheck; EIdleEnable]) /\
  (0 < idle_wait_min d args ->
   (forall ev, throws e ev = None) ->
   can_start d e ->
   In EMainLoopRun (trace (snd (run d e args))) /\
   filter is_watchdog (bootstrap_part (trace (snd (run d e args)))) =
     [ENewIdleCheck (idle_wait_min d args)]
     ++ match d with ConfigMgrD => [] | NetCfgD => [ESetPollTime 30] end
     ++ [EEnableIdleCheck; EIdleEnable]).
Proof.
  destruct (run_behaviour d e args) as (Hocc & Hboot & _ & Hsig).
  assert (Hpositive :
    0 < idle_wait_min d args ->
    In EMainLoopRun (trace (snd (run d e args))) ->
    filter is_watchdog (bootstrap_part (trace (snd (run d e args)))) =
      [ENewIdleCheck (idle_wait_min d args)]
      ++ match d with ConfigMgrD => [] | NetCfgD => [ESetPollTime 30] end
      ++ [EEnableIdleCheck; EIdleEnable]).
  { intros Hpos Hrun. apply positive_threshold in Hpos.
    destruct (Hboot Hrun) as (pro & Hpro & Hall).
    rewrite Hpro, filter_app.
    rewrite (filter_excluded is_prologue is_watchdog pro)
      by (try exact Hall; intros ev; destruct ev; simpl;
          first [reflexivity | discriminate]).
    unfold orderly_bootstrap.
    destruct d; cbn [idle_wait_min] in *; rewrite Hpos;
      destruct (arg_signal_broadcast args);
      destruct (arg_state_dir args);
      destruct (0 <? NetCfg.log_level args); reflexivity. }
  split; [|split].
  - intros H0. apply zero_threshold in H0.
    split; [|exact (Hsig H0)].
    apply (none_of_excluded (may_occur d args)); try exact Hocc.
    intros ev; destruct ev; simpl; rewrite ?H0;
      first [reflexivity | discriminate].
  - exact Hpositive.
  - intros Hpos Hnf Hstart.
    destruct (undisturbed_run_reaches_loop d e args Hnf Hstart) as (Hrun & _).
    split; [exact Hrun | exact (Hpositive Hpos Hrun)].
Qed.

Lemma idle_exit_zero_disables_watchdog_witness :
  (none_of is_watchdog
     (trace (snd (run NetCfgD (with_schedule [signal_slot SIGTERM] calm_env)
                    (with_idle_exit "0" no_args)))) = true /\
   idle (timeline (snd (run NetCfgD (with_schedule [signal_slot SIGTERM] calm_env)
                          (with_idle_exit "0" no_args)))) = None /\
   exists s,
     requests (timeline (snd (run NetCfgD (with_schedule [signal_slot SIGTERM] calm_env)
                                (with_idle_exit "0" no_args)))) =
     [request_of_signal s]) /\
  (none_of is_watchdog
     (trace (snd (run ConfigMgrD (with_schedule [signal_slot SIGINT] calm_env)
                    (with_idle_exit "0" no_args)))) = true /\
   idle (timeline (snd (run ConfigMgrD (with_schedule [signal_slot SIGINT] calm_env)
                          (with_idle_exit "0" no_args)))) = None /\
   exists s,
     requests (timeline (snd (run ConfigMgrD (with_schedule [signal_slot SIGINT] calm_env)
                                (with_idle_exit "0" no_args)))) =
     [request_of_signal s]) /\
  filter is_watchdog
    (bootstrap_part (trace (snd (run NetCfgD calm_env one_minute)))) =
    [ENewIdleCheck 1; ESetPollTime 30; EEnableIdleCheck; EIdleEnable] /\
  (In EMainLoopRun (trace (snd (run NetCfgD calm_env one_minute))) /\
   filter is_watchdog
     (bootstrap_part (trace (snd (run NetCfgD calm_env one_minute)))) =
     [ENewIdleCheck 1; ESetPollTime 30; EEnableIdleCheck; EIdleEnable]) /\
  (In EMainLoopRun (trace (snd (run ConfigMgrD calm_env one_minute))) /\
   filter is_watchdog
     (bootstrap_part (trace (snd (run ConfigMgrD calm_env one_minute)))) =
     [ENewIdleCheck 1; EEnableIdleCheck; EIdleEnable]).
Proof.
  split; [|split; [|split; [|split]]].
  - destruct (proj1 (idle_exit_zero_disables_watchdog NetCfgD
                       (with_schedule [signal_slot SIGTERM] calm_env)
                       (with_idle_exit "0" no_args)) eq_refl)
      as (Hnone & Hidle & Hreq).
    split; [exact Hnone|]. split; [exact Hidle|].
    apply Hreq. vm_compute. reflexivity.
  - destruct (proj1 (idle_exit_zero_disables_watchdog ConfigMgrD
                       (with_schedule [signal_slot SIGINT] calm_env)
                       (with_idle_exit "0" no_args)) eq_refl)
      as (Hnone & Hidle & Hreq).
    split; [exact Hnone|]. split; [exact Hidle|].
    apply Hreq. vm_compute. reflexivity.
  - apply (proj1 (proj2 (idle_exit_zero_disables_watchdog NetCfgD calm_env
                           one_minute))).
    + reflexivity.
    + vm_compute. tauto.
  - apply (proj2 (proj2 (idle_exit_zero_disables_watchdog NetCfgD calm_env
                           one_minute))).
    + reflexivity.
    + intros ev. reflexivity.
    + repeat split.
  - apply (proj2 (proj2 (idle_exit_zero_disables_watchdog ConfigMgrD calm_env
                           one_minute))).
    + reflexivity.
    + intros ev. reflexivity.
    + exact I.
Defined.

(** C10.  configmgr routes SIGINT and SIGTERM to [stop_handler] exactly when
    the idle-exit threshold is 0: then a run that reaches the loop has
    registered both, in this order, and with a positive threshold no run
    registers any; netcfg registers both in every run that reaches the
    loop. *)
Theorem signal_handler_registration (e : Env) (args : ParsedArgs) :
  (ConfigMgr.idle_wait_min args = 0 ->
   In EMainLoopRun (trace (snd (ConfigMgr.main e args))) ->
   filter is_signal_add (bootstrap_part (trace (snd (ConfigMgr.main e args)))) =
     [ESignalAdd SIGINT; ESignalAdd SIGTERM]) /\
  (0 < ConfigMgr.idle_wait_min args ->
   none_of is_signal_add (trace (snd (ConfigMgr.main e args))) = true) /\
  (In EMainLoopRun (trace (snd (NetCfg.main e args))) ->
   filter is_signal_add (bootstrap_part (trace (snd (NetCfg.main e args)))) =
     [ESignalAdd SIGINT; ESignalAdd SIGTERM]).
Proof.
  destruct (run_behaviour ConfigMgrD e args) as (Hocc & Hboot & _).
  destruct (run_behaviour NetCfgD e args) as (_ & Hboot' & _).
  cbn [run idle_wait_min] in *.
  split; [|split].
  - intros H0 Hrun. apply zero_threshold in H0.
    destruct (Hboot Hrun) as (pro & Hpro & Hall).
    rewrite Hpro, filter_app.
    rewrite (filter_excluded is_prologue is_signal_add pro)
      by (try exact Hall; intros ev; destruct ev; simpl;
          first [reflexivity | discriminate]).
    unfold orderly_bootstrap. rewrite H0.
    destruct (arg_signal_broadcast args); destruct (arg_state_dir args);
      reflexivity.
  - intros Hpos. apply positive_threshold in Hpos.
    apply (none_of_excluded (may_occur ConfigMgrD args)); try exact Hocc.
    intros ev; destruct ev; simpl; rewrite ?Hpos;
      first [reflexivity | discriminate].
  - intros Hrun.
    destruct (Hboot' Hrun) as (pro & Hpro & Hall).
    rewrite Hpro, filter_app.
    rewrite (filter_excluded is_prologue is_signal_add pro)
      by (try exact Hall; intros ev; destruct ev; simpl;
          first [reflexivity | discriminate]).
    unfold orderly_bootstrap.
    destruct (arg_signal_broadcast args);
      destruct (0 <? NetCfg.log_level args);
      destruct (0 <? NetCfg.idle_wait_min args); reflexivity.
Qed.

Lemma signal_handler_registration_witness :
  filter is_signal_add
    (bootstrap_part
       (trace (snd (ConfigMgr.main (with_schedule [signal_slot SIGINT] calm_env)
                      (with_idle_exit "0" no_args))))) =
    [ESignalAdd SIGINT; ESignalAdd SIGTERM] /\
  none_of is_signal_add (trace (snd (ConfigMgr.main calm_env one_minute))) = true /\
  filter is_signal_add
    (bootstrap_part (trace (snd (NetCfg.main calm_env one_minute)))) =
    [ESignalAdd SIGINT; ESignalAdd SIGTERM].
Proof.
  split; [|split].
  - apply (proj1 (signal_handler_registration
                    (with_schedule [signal_slot SIGINT] calm_env)
                    (with_idle_exit "0" no_args))).
    + reflexivity.
    + vm_compute. tauto.
  - apply (proj1 (proj2 (signal_handler_registration calm_env one_minute))).
    reflexivity.
  - apply (proj2 (proj2 (signal_handler_registration calm_env one_minute))).
    vm_compute. tauto.
Defined.

(** ** Start-up: log sink, privileges, root check *)

Lemma negb_startup (l : list Event) (ev : Event) :
  forallb (fun ev => negb (is_startup ev)) l = true ->
  In ev l -> is_startup ev = false.
Proof.
  intros H Hin. apply (forallb_member _ _ _ H) in Hin. now apply negb_true_iff.
Qed.

Lemma startup_not_switch (ev : Event) :
  is_startup ev = false -> is_change_id ev = false.
Proof.
  destruct ev; simpl; intros H; first [reflexivity | discriminate H].
Qed.

Lemma destroy_never_raises (e : Env) (u : list Event) (ev : Event) :
  forallb is_destroy u = true -> In ev u -> raises e ev = None.
Proof.
  intros Hu Hin. pose proof (forallb_member _ _ _ Hu Hin) as H.
  destruct ev; first [discriminate H | reflexivity].
Qed.

(** C3 (amended).  When a log file is requested, netcfg constructs the log
    writer before its first capability call; configmgr calls [drop_root()]
    at the start of [main], before its log destination is opened and its
    log writer constructed. *)
Theorem log_sink_and_privilege_order (e : Env) (args : ParsedArgs) (f : string) :
  arg_log_file args = Some f ->
  always_preceded is_log_writer is_capng (trace (snd (NetCfg.main e args))) = true /\
  always_preceded is_drop_root is_log_sink (trace (snd (ConfigMgr.main e args))) = true.
Proof.
  intros Hlf. split.
  - pose (Post := fun rw : Outcome * World =>
      always_preceded is_log_writer is_capng (trace (snd rw)) = true).
    change (Post (NetCfg.main e args)).
    top_exec_with serve_behaviour ltac:(rewrite ?Hlf).
    all: enter_leaf Post; normalise_trace.
    all: unfold always_preceded;
      cbn [preceded_from is_log_writer is_capng orb andb].
    all: first [reflexivity | apply preceded_from_seen].
  - pose (Post := fun rw : Outcome * World =>
      always_preceded is_drop_root is_log_sink (trace (snd rw)) = true).
    change (Post (ConfigMgr.main e args)).
    top_exec_with serve_behaviour ltac:(rewrite ?Hlf).
    all: enter_leaf Post; normalise_trace.
    all: unfold always_preceded;
      cbn [preceded_from is_drop_root is_log_sink orb andb].
    all: first [reflexivity | apply preceded_from_seen].
Qed.

Lemma log_sink_and_privilege_order_witness :
  always_preceded is_log_writer is_capng
    (trace (snd (NetCfg.main calm_env (with_log_file system_log one_minute)))) = true /\
  always_preceded is_drop_root is_log_sink
    (trace (snd (ConfigMgr.main calm_env (with_log_file system_log one_minute)))) = true.
Proof.
  apply (log_sink_and_privilege_order calm_env
           (with_log_file system_log one_minute) system_log).
  reflexivity.
Defined.

(** C3 as stated fails for configmgr: [drop_root()] is its first call, the
    log file is opened and the log writer constructed afterwards. *)
Lemma configmgr_restricts_before_log_sink :
  first_index is_drop_root
    (trace (snd (ConfigMgr.main calm_env (with_log_file system_log one_minute))))
  = Some 0%nat /\
  first_index is_log_sink
    (trace (snd (ConfigMgr.main calm_env (with_log_file system_log one_minute))))
  = Some 4%nat /\
  always_preceded is_log_sink is_drop_root
    (trace (snd (ConfigMgr.main calm_env (with_log_file system_log one_minute))))
  = false.
Proof.
  vm_compute. repeat split; reflexivity.
Qed.

Lemma retained_at_switch_sound (pre post : list Event) (ev : Event) : forall s,
  retained_at_switch s (pre ++ ev :: post) = true ->
  is_change_id ev = true ->
  Capng.holds CAP_NET_ADMIN (Capng.effective (fold_left Capng.step pre s)) = true /\
  Capng.holds CAP_NET_ADMIN (Capng.permitted (fold_left Capng.step pre s)) = true.
Proof.
  induction pre as [|a pre IH]; intros s H Hev; simpl in H.
  - rewrite Hev in H. apply andb_prop in H. destruct H as [H _].
    apply andb_prop in H. exact H.
  - apply andb_prop in H. destruct H as [_ H]. simpl. now apply IH.
Qed.

Lemma retained_without_switch (tr : list Event) : forall s,
  (forall ev, In ev tr -> is_change_id ev = false) ->
  retained_at_switch s tr = true.
Proof.
  induction tr as [|a tr IH]; intros s H; [reflexivity|].
  simpl. rewrite (H a (or_introl eq_refl)). simpl. apply IH.
  intros ev Hin. apply H. now right.
Qed.

Ltac no_switch_left without_switch not_switch not_startup member :=
  let ev := fresh "ev" in let Hin := fresh "Hin" in
  apply without_switch; intros ev Hin; member_cases Hin;
  first
    [ match goal with
      | Hnop : forallb (fun ev => negb (is_startup ev)) ?l = true |- _ =>
          apply in_rev in Hin;
          exact (not_switch _ (not_startup _ _ Hnop Hin))
      end
    | match goal with
      | Hu : forallb is_destroy ?u = true |- _ =>
          let H := fresh in
          pose proof (member _ _ _ Hu Hin) as H;
          destruct ev; first [reflexivity | discriminate H]
      end ].

Lemma net_admin_retained_at_every_switch (e : Env) (args : ParsedArgs) :
  DEBUG_OPTIONS e = false ->
  retained_at_switch (Capng.interp []) (trace (snd (NetCfg.main e args))) = true.
Proof.
  intros Hdbg.
  pose (Post := fun rw : Outcome * World =>
    retained_at_switch (Capng.interp []) (trace (snd rw)) = true).
  change (Post (NetCfg.main e args)).
  top_exec_with serve_behaviour ltac:(rewrite ?Hdbg).
  all: enter_leaf Post; normalise_trace.
  all: cbn [retained_at_switch is_change_id Capng.interp fold_left Capng.step
            Capng.has_type existsb Capng.holds Capng.effective Capng.permitted
            orb andb].
  all: first [reflexivity
             | no_switch_left retained_without_switch startup_not_switch
                 negb_startup (@forallb_member Event)].
Qed.

(** C9.  In the build without debug options, whenever netcfg switches
    identity ([capng_change_id]) the capability state built up by the calls
    made before holds [CAP_NET_ADMIN] in the effective and in the permitted
    set. *)
Theorem net_admin_added_before_identity_switch
  (e : Env) (args : ParsedArgs) (pre post : list Event)
  (uid gid : Z) (flags : list CapngFlag) :
  DEBUG_OPTIONS e = false ->
  trace (snd (NetCfg.main e args)) = pre ++ ECapngChangeId uid gid flags :: post ->
  Capng.holds CAP_NET_ADMIN (Capng.effective (Capng.interp pre)) = true /\
  Capng.holds CAP_NET_ADMIN (Capng.permitted (Capng.interp pre)) = true.
Proof.
  intros Hdbg Htr.
  pose proof (net_admin_retained_at_every_switch e args Hdbg) as H.
  rewrite Htr in H.
  exact (retained_at_switch_sound pre post _ _ H eq_refl).
Qed.

Lemma net_admin_added_before_identity_switch_witness :
  Capng.holds CAP_NET_ADMIN
    (Capng.effective
       (Capng.interp
          [ERunCommand; ECapngClear;
           ECapngUpdateAdd [CAPNG_EFFECTIVE; CAPNG_PERMITTED] CAP_NET_ADMIN;
           ELookupUid; ELookupGid])) = true /\
  Capng.holds CAP_NET_ADMIN
    (Capng.permitted
       (Capng.interp
          [ERunCommand; ECapngClear;
           ECapngUpdateAdd [CAPNG_EFFECTIVE; CAPNG_PERMITTED] CAP_NET_ADMIN;
           ELookupUid; ELookupGid])) = true.
Proof.
  apply (net_admin_added_before_identity_switch calm_env one_minute
           [ERunCommand; ECapngClear;
            ECapngUpdateAdd [CAPNG_EFFECTIVE; CAPNG_PERMITTED] CAP_NET_ADMIN;
            ELookupUid; ELookupGid]
           (skipn 6 (trace (snd (NetCfg.main calm_env one_minute))))
           990 990 [CAPNG_DROP_SUPP_GRP; CAPNG_CLEAR_BOUNDING]).
  - reflexivity.
  - vm_compute. reflexivity.
Defined.

Ltac no_switch_made Hex not_switch not_startup member :=
  let ev := fresh "ev" in let Hin := fresh "Hin" in let Hev := fresh "Hev" in
  apply existsb_exists in Hex; destruct Hex as (ev & Hin & Hev);
  member_cases Hin;
  first
    [ subst ev; discriminate Hev
    | match goal with
      | Hnop : forallb (fun ev => negb (is_startup ev)) ?l = true |- _ =>
          apply in_rev in Hin;
          rewrite (not_switch _ (not_startup _ _ Hnop Hin)) in Hev;
          discriminate Hev
      end
    | match goal with
      | Hu : forallb is_destroy ?u = true |- _ =>
          let H := fresh in
          pose proof (member _ _ _ Hu Hin) as H;
          destruct ev; first [discriminate Hev | discriminate H]
      end ].

(** C5.  When netcfg calls [capng_change_id] and the call returns a non-zero
    status, the process ends with the start-up error code 2: it never
    connects to the bus and never runs the loop. *)
Theorem failed_restriction_aborts_startup (e : Env) (args : ParsedArgs) :
  capng_change_id_result e <> 0 ->
  existsb is_change_id (trace (snd (NetCfg.main e args))) = true ->
  fst (NetCfg.main e args) = Exit 2 /\
  none_of is_loop_run (trace (snd (NetCfg.main e args))) = true /\
  none_of is_bus_connect (trace (snd (NetCfg.main e args))) = true.
Proof.
  intros Hres.
  pose (Post := fun rw : Outcome * World =>
    existsb is_change_id (trace (snd rw)) = true ->
    fst rw = Exit 2 /\
    none_of is_loop_run (trace (snd rw)) = true /\
    none_of is_bus_connect (trace (snd rw)) = true).
  change (Post (NetCfg.main e args)).
  top_exec_with serve_behaviour idtac.
  all: enter_leaf Post; normalise_trace.
  all: try solve [intros Hex; discriminate Hex].
  all: try solve [intros _; repeat split; reflexivity].
  all: try solve [exfalso;
                  match goal with
                  | H : (0 =? capng_change_id_result _) = true |- _ =>
                      apply Z.eqb_eq in H; congruence
                  end].
  all: intros Hex; exfalso;
    no_switch_made Hex startup_not_switch negb_startup (@forallb_member Event).
Qed.

Lemma failed_restriction_aborts_startup_witness :
  fst (NetCfg.main (with_change_id_result (-5) calm_env) one_minute) = Exit 2 /\
  none_of is_loop_run
    (trace (snd (NetCfg.main (with_change_id_result (-5) calm_env) one_minute)))
  = true /\
  none_of is_bus_connect
    (trace (snd (NetCfg.main (with_change_id_result (-5) calm_env) one_minute)))
  = true.
Proof.
  apply (failed_restriction_aborts_startup
           (with_change_id_result (-5) calm_env) one_minute).
  - discriminate.
  - vm_compute. reflexivity.
Defined.

(** C6.  When the effective group or user id is not 0, [netcfg_main] raises
    its error at once, leaving the world as it found it; the process opens
    no log destination, makes no capability call and does not connect to the
    bus, and ends with code 2. *)
Theorem netcfg_requires_root (e : Env) (args : ParsedArgs) :
  getegid e <> 0 \/ geteuid e <> 0 ->
  (forall w, env w = e ->
             NetCfg.netcfg_main args w = (Raise CommandException [], w)) /\
  none_of (fun ev => is_log_setup ev || is_privilege ev || is_bus_connect ev)
    (trace (snd (NetCfg.main e args))) = true /\
  (throws e ERunCommand = None -> fst (NetCfg.main e args) = Exit 2).
Proof.
  intros Hroot.
  split.
  { intros w <-. unfold NetCfg.netcfg_main, bind, ask, throw.
    destruct (0 =? getegid (env w)) eqn:Hg; [|reflexivity].
    destruct (0 =? geteuid (env w)) eqn:Hu; [|reflexivity].
    apply Z.eqb_eq in Hg, Hu. destruct Hroot; congruence. }
  pose (Post := fun rw : Outcome * World =>
    none_of (fun ev => is_log_setup ev || is_privilege ev || is_bus_connect ev)
      (trace (snd rw)) = true /\
    (throws e ERunCommand = None -> fst rw = Exit 2)).
  change (Post (NetCfg.main e args)).
  top_exec_with serve_behaviour idtac.
  all: enter_leaf Post; normalise_trace.
  all: try solve [split; [reflexivity | first [reflexivity | congruence]]].
  all: exfalso;
    repeat match goal with
    | H : (0 =? _) = true |- _ => apply Z.eqb_eq in H
    end; destruct Hroot; congruence.
Qed.

Lemma netcfg_requires_root_witness :
  (forall w, env w = with_euid 1000 calm_env ->
             NetCfg.netcfg_main one_minute w = (Raise CommandException [], w)) /\
  none_of (fun ev => is_log_setup ev || is_privilege ev || is_bus_connect ev)
    (trace (snd (NetCfg.main (with_euid 1000 calm_env) one_minute))) = true /\
  (throws (with_euid 1000 calm_env) ERunCommand = None ->
   fst (NetCfg.main (with_euid 1000 calm_env) one_minute) = Exit 2).
Proof.
  apply (netcfg_requires_root (with_euid 1000 calm_env) one_minute).
  right. discriminate.
Defined.

(** ** Exit codes *)

Ltac split_member Hin :=
  repeat match type of Hin with
  | In _ (_ :: _) => destruct Hin as [Hin|Hin]
  | In _ (_ ++ _) => apply in_app_or in Hin; destruct Hin as [Hin|Hin]
  | In _ [] => destruct Hin
  end.

Ltac outcome_matches unfold_outcome :=
  unfold_outcome;
  cbn [is_startup is_privilege is_log_setup negb andb orb];
  rewrite_conds; cbn [negb andb orb]; reflexivity.

(** The exit code of this run is one of the listed ones. *)
Ltac code_listed :=
  let c := fresh "c" in let H := fresh "H" in
  intros c H; first [discriminate H | injection H as <-; tauto].

(** A call of the trace raised: the outcome is the one the handlers give. *)
Ltac exception_handled unfold_outcome not_startup no_raise :=
  let ev := fresh "ev" in let x := fresh "x" in
  let Hin := fresh "Hin" in let Hr := fresh "Hr" in
  intros ev x Hin Hr; split_member Hin;
  first
    [ (* a known call *)
      subst ev; unfold raises in Hr; cbn [is_c_call] in Hr;
      first [ discriminate Hr
            | match type of Hr with
              | throws ?e ?c = Some _ =>
                  match goal with
                  | H : throws e c = None |- _ => rewrite H in Hr; discriminate Hr
                  | H : throws e c = Some _ |- _ =>
                      rewrite H in Hr; injection Hr as <-;
                      outcome_matches unfold_outcome
                  end
              end ]
    | (* a call made by serve *)
      match goal with
      | Hfwd : forall ev x, In ev ?l -> _ -> raised_result _ _ _ _,
        Hnop : forallb _ ?l = true |- _ =>
          apply in_rev in Hin;
          let Hrr := fresh "Hrr" in
          pose proof (Hfwd ev x Hin Hr) as Hrr; unfold raised_result in Hrr;
          pose proof (not_startup _ _ Hnop Hin);
          first
            [ contradiction
            | destruct Hrr as (? & ? & ?);
              first [discriminate | outcome_matches unfold_outcome]
            | let Hx := fresh in let Hstd := fresh in
              destruct Hrr as (Hx & Hstd); subst;
              try specialize (Hstd eq_refl); outcome_matches unfold_outcome ]
      end
    | (* a destructor *)
      match goal with
      | Hu : forallb is_destroy ?u = true |- _ =>
          rewrite (no_raise _ _ _ Hu Hin) in Hr; discriminate Hr
      end ].

Ltac member_of_trace :=
  first
    [ simpl; tauto
    | repeat (apply in_cons);
      first [ apply -> in_rev; eassumption
            | apply in_or_app; left; apply -> in_rev; eassumption ] ].

(** No call of the trace raised: the run ended in order, is still in the
    loop, or netcfg refused to start. *)
Ltac nothing_raised :=
  let Hnone := fresh "Hnone" in
  intros Hnone;
  first
    [ solve [left; reflexivity]
    | solve [right; eexists; reflexivity]
    | solve [right; left; eexists; reflexivity]
    | solve [right; right; split; [reflexivity|];
             repeat match goal with
             | H : (0 =? _) = false |- _ => apply Z.eqb_neq in H
             end; auto]
    | exfalso;
      first
        [ match goal with
          | H : throws ?e ?c = Some _ |- _ =>
              let Hc := fresh in
              assert (Hc : raises e c = None) by (apply Hnone; member_of_trace);
              unfold raises in Hc; cbn [is_c_call] in Hc; congruence
          end
        | match goal with
          | Hbl : exists ev, In ev _ /\ raises _ ev = Some _ |- _ =>
              let ev := fresh in let Hi := fresh in let Hr := fresh in
              destruct Hbl as (ev & Hi & Hr);
              rewrite Hnone in Hr by member_of_trace; discriminate Hr
          | Hbl : exists ev x, In ev _ /\ raises _ ev = Some x |- _ =>
              let ev := fresh in let y := fresh in
              let Hi := fresh in let Hr := fresh in
              destruct Hbl as (ev & y & Hi & Hr);
              rewrite Hnone in Hr by member_of_trace; discriminate Hr
          end ] ].

Lemma configmgr_outcomes (e : Env) (args : ParsedArgs) :
  (forall c, fst (ConfigMgr.main e args) = Exit c -> c = 0 \/ c = 2) /\
  (forall ev x,
     In ev (trace (snd (ConfigMgr.main e args))) -> raises e ev = Some x ->
     fst (ConfigMgr.main e args) = ConfigMgr_on_exception e x) /\
  ((forall ev, In ev (trace (snd (ConfigMgr.main e args))) -> raises e ev = None) ->
   fst (ConfigMgr.main e args) = Exit 0 \/
   exists h, fst (ConfigMgr.main e args) = Halted h).
Proof.
  pose (Post := fun rw : Outcome * World =>
    (forall c, fst rw = Exit c -> c = 0 \/ c = 2) /\
    (forall ev x, In ev (trace (snd rw)) -> raises e ev = Some x ->
       fst rw = ConfigMgr_on_exception e x) /\
    ((forall ev, In ev (trace (snd rw)) -> raises e ev = None) ->
       fst rw = Exit 0 \/ exists h, fst rw = Halted h)).
  change (Post (ConfigMgr.main e args)).
  top_exec_with serve_behaviour idtac.
  all: enter_leaf Post; normalise_trace.
  all: split; [code_listed|].
  all: split; [exception_handled ltac:(unfold ConfigMgr_on_exception)
                 negb_startup destroy_never_raises|].
  all: nothing_raised.
Qed.

Lemma netcfg_outcomes (e : Env) (args : ParsedArgs) :
  (forall c, fst (NetCfg.main e args) = Exit c -> c = 0 \/ c = 2 \/ c = 3) /\
  (forall ev x,
     In ev (trace (snd (NetCfg.main e args))) -> raises e ev = Some x ->
     fst (NetCfg.main e args) = NetCfg_on_exception e ev x) /\
  ((forall ev, In ev (trace (snd (NetCfg.main e args))) -> raises e ev = None) ->
   fst (NetCfg.main e args) = Exit 0 \/
   (exists h, fst (NetCfg.main e args) = Halted h) \/
   (fst (NetCfg.main e args) = Exit 2 /\
    (getegid e <> 0 \/ geteuid e <> 0 \/ capng_change_id_result e <> 0))).
Proof.
  pose (Post := fun rw : Outcome * World =>
    (forall c, fst rw = Exit c -> c = 0 \/ c = 2 \/ c = 3) /\
    (forall ev x, In ev (trace (snd rw)) -> raises e ev = Some x ->
       fst rw = NetCfg_on_exception e ev x) /\
    ((forall ev, In ev (trace (snd rw)) -> raises e ev = None) ->
       fst rw = Exit 0 \/ (exists h, fst rw = Halted h) \/
       (fst rw = Exit 2 /\
        (getegid e <> 0 \/ geteuid e <> 0 \/ capng_change_id_result e <> 0)))).
  change (Post (NetCfg.main e args)).
  top_exec_with serve_behaviour idtac.
  all: enter_leaf Post; normalise_trace.
  all: split; [code_listed|].
  all: split; [exception_handled ltac:(unfold NetCfg_on_exception)
                 negb_startup destroy_never_raises|].
  all: nothing_raised.
Qed.

(** C4 (amended).  configmgr exits with 0 or 2 only: when a call raises an
    exception that is a [LogServiceProxyException] or a
    [CommandArgBaseException] the exit code is 2, any other exception leaves
    [main] uncaught, and there is no exit code 3.  netcfg exits with 0, 2 or
    3: an exception derived from [std::exception] and raised inside the [try]
    block of [netcfg_main] (from the bus connection on, relay attachment
    included) gives 3; otherwise a [CommandException] gives 2 and any other
    exception leaves [main] uncaught.  When no call raises, a run of either
    daemon that leaves the loop exits with 0, unless netcfg refused to start
    (not root, or failed identity switch), which gives 2. *)
Theorem exit_codes (e : Env) (args : ParsedArgs) :
  ((forall c, fst (ConfigMgr.main e args) = Exit c -> c = 0 \/ c = 2) /\
   (forall ev x,
      In ev (trace (snd (ConfigMgr.main e args))) -> raises e ev = Some x ->
      fst (ConfigMgr.main e args) = ConfigMgr_on_exception e x) /\
   ((forall ev, In ev (trace (snd (ConfigMgr.main e args))) -> raises e ev = None) ->
    fst (ConfigMgr.main e args) = Exit 0 \/
    exists h, fst (ConfigMgr.main e args) = Halted h)) /\
  ((forall c, fst (NetCfg.main e args) = Exit c -> c = 0 \/ c = 2 \/ c = 3) /\
   (forall ev x,
      In ev (trace (snd (NetCfg.main e args))) -> raises e ev = Some x ->
      fst (NetCfg.main e args) = NetCfg_on_exception e ev x) /\
   ((forall ev, In ev (trace (snd (NetCfg.main e args))) -> raises e ev = None) ->
    fst (NetCfg.main e args) = Exit 0 \/
    (exists h, fst (NetCfg.main e args) = Halted h) \/
    (fst (NetCfg.main e args) = Exit 2 /\
     (getegid e <> 0 \/ geteuid e <> 0 \/ capng_change_id_result e <> 0)))).
Proof.
  split; [apply configmgr_outcomes | apply netcfg_outcomes].
Qed.

Lemma exit_codes_witness :
  fst (ConfigMgr.main (with_throws attach_fails calm_env) one_minute) = Exit 2 /\
  fst (NetCfg.main (with_throws attach_fails calm_env) one_minute) = Exit 3.
Proof.
  split.
  - apply (proj1 (proj2 (proj1
             (exit_codes (with_throws attach_fails calm_env) one_minute)))
             (EAttach OpenVPN3DBus_interf_configuration) LogServiceProxyException).
    + vm_compute. tauto.
    + reflexivity.
  - apply (proj1 (proj2 (proj2
             (exit_codes (with_throws attach_fails calm_env) one_minute)))
             (EAttach OpenVPN3DBus_interf_netcfg) LogServiceProxyException).
    + vm_compute. tauto.
    + reflexivity.
Defined.

(** C4 as stated fails for configmgr: an exception raised by [Setup()] that
    is neither a [LogServiceProxyException] nor a [CommandArgBaseException]
    is not caught by [main]; the process does not exit with code 3. *)
Lemma configmgr_has_no_exit_code_3 :
  fst (ConfigMgr.main (with_throws setup_fails calm_env) one_minute) =
    Terminate (OtherClass "std::bad_alloc") /\
  fst (ConfigMgr.main (with_throws setup_fails calm_env) one_minute) <> Exit 3.
Proof.
  vm_compute. split; [reflexivity | discriminate].
Qed.

(** ** Idle exit *)














(** ** Arguments of the calls *)

Lemma same_string (s : string) : String.eqb s s = true.
Proof.
  apply String.eqb_refl.
Qed.

Ltac known_prefix Hl :=
  match type of Hl with
  | ?t = ?l ++ ?tl =>
      let p := prefix_of t tl in
      assert (l = p) by (apply (app_inv_tail tl); symmetry; exact Hl);
      subst l; clear Hl
  end.

Ltac eval_allowed same :=
  cbn [forallb call_allowed andb orb negb same_list CapngType_eqb CapngFlag_eqb
       LogDest_eqb Nat.eqb Bool.eqb];
  unfold log_dest_of;
  rewrite_conds;
  rewrite ?same, ?Z.eqb_refl;
  cbn [andb orb negb LogDest_eqb Bool.eqb];
  rewrite ?same.

Ltac failed_detach :=
  let x := fresh "x" in let Hin := fresh "Hin" in let Hr := fresh "Hr" in
  intros x Hin Hr; unfold raises in Hr; cbn [is_c_call] in Hr;
  first
    [ match goal with
      | H : throws _ (EDetach _) = None |- _ => rewrite H in Hr; discriminate Hr
      end
    | match goal with
      | H : throws _ (EDetach _) = Some _ |- _ =>
          split; [reflexivity|]; split; [simpl; tauto|];
          first [ intros _; simpl; tauto | congruence ]
      end
    | exfalso; simpl in Hin;
      repeat (destruct Hin as [Hin|Hin]; [discriminate Hin|]); exact Hin ].

Ltac left_alive :=
  eexists; split;
  [ cbn [rev app live_objects]; unfold raises; cbn [is_c_call];
    repeat match goal with
    | H : throws ?e ?ev = _ |- context [throws ?e ?ev] => rewrite H
    end;
    cbn [Object_eqb]; reflexivity
  | reflexivity ].

Lemma serve_calls d e args tr0 tl r w' :
  serve d args
    {| env := e; events := tr0; handlers := []; phase := Bootstrap;
       timeline := tl |} = (r, w') ->
  forall l, events w' = l ++ tr0 -> serve_details d e args r l.
Proof.
  intros Hs.
  pose (Post := fun rw : Result Z * World =>
     forall l, events (snd rw) = l ++ tr0 -> serve_details d e args (fst rw) l).
  change (Post (r, w')). rewrite <- Hs. clear Hs r w'.
  destruct d.
  - unfold_prog; repeat (step; unfold_prog).
    all: enter_leaf Post; intros l Hl; known_prefix Hl.
    all: unfold serve_details, idle_wait_min, log_interface.
    all: split; [eval_allowed same_string; reflexivity|].
    all: split; [failed_detach | left_alive].
  - unfold_prog; repeat (step; unfold_prog).
    all: enter_leaf Post; intros l Hl; known_prefix Hl.
    all: unfold serve_details, idle_wait_min, log_interface.
    all: split; [eval_allowed same_string; reflexivity|].
    all: split; [failed_detach | left_alive].
Qed.

(** ** Whole runs, with the arguments of the calls *)

Ltac join_serve_details behaviour details :=
  match goal with
  | |- context [serve ?d ?a ?W] =>
      let r := fresh "r" in let w' := fresh "w'" in let Hs := fresh "Hs" in
      let l := fresh "l" in let Hev := fresh "Hev" in let Henv := fresh "Henv" in
      let Hocc := fresh "Hocc" in let Hnop := fresh "Hnop" in
      let Hboot := fresh "Hboot" in let Hres := fresh "Hres" in
      let Hfwd := fresh "Hfwd" in let Hsig := fresh "Hsig" in
      let c := fresh "c" in let ph := fresh "ph" in
      let Hd := fresh "Hd" in let Hph := fresh "Hph" in
      let Hrun := fresh "Hrun" in let Htd := fresh "Htd" in
      let Hbl := fresh "Hbl" in let Hc := fresh "Hc" in
      let Hu := fresh "Hu" in
      let Hdet := fresh "Hdet" in let Hcalls := fresh "Hcalls" in
      let Hfail := fresh "Hfail" in
      let objs := fresh "objs" in let Hlive := fresh "Hlive" in
      let Hobjs := fresh "Hobjs" in
      destruct (serve d a W) as [r w'] eqn:Hs;
      pose proof (details _ _ _ _ _ _ _ Hs) as Hdet;
      apply behaviour in Hs;
      destruct Hs as (l & Hev & Henv & Hocc & Hnop & Hboot & Hfwd & Hsig & Hres);
      destruct (Hdet l Hev) as (Hcalls & Hfail & objs & Hlive & Hobjs);
      clear Hdet;
      destruct w' as [? ? ? ph ?];
      cbn [events env phase timeline] in Hev, Henv, Hres, Hsig; subst;
      destruct r as [c| |]; cbn [fst] in Hobjs;
      [ destruct Hres as [(Hc & Hph & Hrun & Htd) | (Hd & Hc & Hbl)];
        [ subst c ph | try discriminate Hd; subst c ]
      | destruct Hres as (Hu & Hbl)
      | ]
  end.

Ltac top_exec_details behaviour details pre :=
  unfold run, ConfigMgr.main, ConfigMgr.main_body, ConfigMgr.config_manager,
    NetCfg.main, NetCfg.main_body, NetCfg.netcfg_main;
  change ConfigMgr.serve with (serve ConfigMgrD);
  change NetCfg.serve with (serve NetCfgD);
  unfold_top; pre; unfold_top;
  repeat (first [step_known | step]; unfold_top; pre; unfold_top);
  try (join_serve_details behaviour details; unfold_joined;
       repeat (step_joined; unfold_joined)).

Lemma call_allowed_destroy d e args ev :
  is_destroy ev = true -> call_allowed d e args ev = true.
Proof.
  destruct ev; try discriminate; reflexivity.
Qed.

Ltac solve_allowed same member destroy_ok :=
  let ev := fresh "ev" in let Hin := fresh "Hin" in
  apply forallb_forall; intros ev Hin;
  repeat match type of Hin with
  | In _ (_ :: _) =>
      destruct Hin as [Hin|Hin];
      [subst ev; eval_allowed same; reflexivity|]
  | In _ (_ ++ _) => apply in_app_or in Hin; destruct Hin as [Hin|Hin]
  | In _ [] => destruct Hin
  end;
  first
    [ match goal with
      | Hcalls : forallb (call_allowed _ _ _) ?l = true |- _ =>
          apply in_rev in Hin; exact (member _ _ _ Hcalls Hin)
      end
    | match goal with
      | Hu : forallb is_destroy ?u = true |- _ =>
          exact (destroy_ok _ _ _ _ (member _ _ _ Hu Hin))
      end ].

(** Every call of every run has the arguments the command line and the
    environment gave. *)
Lemma run_calls d e args :
  forallb (call_allowed d e args) (trace (snd (run d e args))) = true.
Proof.
  pose (Post := fun rw : Outcome * World =>
    forallb (call_allowed d e args) (trace (snd rw)) = true).
  change (Post (run d e args)).
  destruct d; top_exec_details serve_behaviour serve_calls idtac.
  all: enter_leaf Post; normalise_trace.
  all: solve_allowed same_string (@forallb_member Event) call_allowed_destroy.
Qed.

Lemma filter_absent (q : Event -> bool) (tr : list Event) :
  (forall ev, In ev tr -> q ev = false) -> filter q tr = [].
Proof.
  induction tr as [|a tr IH]; intros H; [reflexivity|].
  simpl. rewrite (H a (or_introl eq_refl)). apply IH.
  intros ev Hin. apply H. now right.
Qed.

(** A kind of start-up call is absent from what follows the prologue. *)
Ltac absent_after_startup not_kind not_startup member :=
  let ev := fresh "ev" in let Hin := fresh "Hin" in
  intros ev Hin; member_cases Hin;
  first
    [ match goal with
      | Hnop : forallb (fun ev => negb (is_startup ev)) ?l = true |- _ =>
          apply in_rev in Hin;
          exact (not_kind _ (not_startup _ _ Hnop Hin))
      end
    | match goal with
      | Hu : forallb is_destroy ?u = true |- _ =>
          let H := fresh in
          pose proof (member _ _ _ Hu Hin) as H;
          destruct ev; first [reflexivity | discriminate H]
      end ].

Ltac drop_rest absent not_kind not_startup member :=
  match goal with
  | |- context [filter ?q (rev ?l ++ ?r)] =>
      rewrite (absent q (rev l ++ r))
        by absent_after_startup not_kind not_startup member
  | |- context [filter ?q (rev ?l)] =>
      rewrite (absent q (rev l))
        by absent_after_startup not_kind not_startup member
  end.

(** ** Log destination *)

(** X1.  Without the option [log-file] no run of either daemon opens a log
    file, constructs a colour object or constructs a log writer: [colour]
    alone has no effect. *)
Theorem no_log_file_no_log_writer (d : Daemon) (e : Env) (args : ParsedArgs) :
  arg_log_file args = None ->
  none_of is_log_setup (trace (snd (run d e args))) = true.
Proof.
  intros Hlf.
  apply (none_of_excluded (call_allowed d e args)); [|apply run_calls].
  intros ev; destruct ev; simpl; rewrite ?Hlf;
    first [reflexivity | discriminate].
Qed.

Lemma no_log_file_no_log_writer_witness :
  none_of is_log_setup
    (trace (snd (run NetCfgD calm_env (with_colour one_minute)))) = true.
Proof.
  apply (no_log_file_no_log_writer NetCfgD calm_env (with_colour one_minute)).
  reflexivity.
Defined.

Lemma log_dest_eqb_eq (a b : LogDest) : LogDest_eqb a b = true -> a = b.
Proof.
  destruct a, b; simpl; intros H; try discriminate; [|reflexivity].
  apply String.eqb_eq in H. now subst.
Qed.

Lemma startup_not_log_setup (ev : Event) :
  is_startup ev = false -> is_log_setup ev = false.
Proof.
  destruct ev; simpl; intros H; first [reflexivity | discriminate H].
Qed.

Lemma log_setup_made (d : Daemon) (e : Env) (args : ParsedArgs) (f : string) :
  arg_log_file args = Some f ->
  reaches_log_setup d e ->
  (arg_colour args = true -> throws e ENewANSIColours = None) ->
  filter is_log_setup (trace (snd (run d e args))) = log_setup_calls f args.
Proof.
  intros Hlf Hreach Hcol.
  pose (Post := fun rw : Outcome * World =>
    filter is_log_setup (trace (snd rw)) = log_setup_calls f args).
  change (Post (run d e args)).
  destruct d; cbn [reaches_log_setup] in Hreach.
  - destruct Hreach as (Hdrop & Hparse & Hver).
    top_exec_with serve_behaviour ltac:(rewrite ?Hlf, ?Hdrop, ?Hparse, ?Hver).
    all: enter_leaf Post; normalise_trace.
    all: unfold log_setup_calls, log_dest_of; rewrite_conds.
    all: try match goal with
             | H : throws _ ENewANSIColours = Some _ |- _ =>
                 exfalso; first [ discriminate (Hcol eq_refl)
                                | discriminate (Hcol ltac:(assumption)) ]
             end.
    all: cbn [filter is_log_setup app negb].
    all: try drop_rest filter_absent startup_not_log_setup negb_startup
               (@forallb_member Event).
    all: reflexivity.
  - destruct Hreach as (Hparse & Hg & Hu).
    top_exec_with serve_behaviour
      ltac:(rewrite ?Hlf, ?Hparse, ?Hg, ?Hu; change (0 =? 0) with true).
    all: enter_leaf Post; normalise_trace.
    all: unfold log_setup_calls, log_dest_of; rewrite_conds.
    all: try match goal with
             | H : throws _ ENewANSIColours = Some _ |- _ =>
                 exfalso; first [ discriminate (Hcol eq_refl)
                                | discriminate (Hcol ltac:(assumption)) ]
             end.
    all: cbn [filter is_log_setup app negb].
    all: try drop_rest filter_absent startup_not_log_setup negb_startup
               (@forallb_member Event).
    all: reflexivity.
Qed.

(** X2.  With [log-file] given, a run that gets to the log set-up makes
    exactly these calls for it, in this order: it opens the named file,
    unless the name is [stdout:], which stands for the standard output;
    with [colour] it constructs the colour object; and it constructs the
    log writer, the colouring one exactly with [colour], on the opened file
    or on the standard output.  In every run, whatever raises, the named
    file is the only file opened, it is opened before a log writer is
    constructed, and every log writer constructed is that one. *)
Theorem log_destination_follows_log_file
  (d : Daemon) (e : Env) (args : ParsedArgs) (f : string) :
  arg_log_file args = Some f ->
  (reaches_log_setup d e ->
   (arg_colour args = true -> throws e ENewANSIColours = None) ->
   filter is_log_setup (trace (snd (run d e args))) = log_setup_calls f args) /\
  (f = "stdout:" -> none_of is_open_log_file (trace (snd (run d e args))) = true) /\
  (forall g, In (EOpenLogFile g) (trace (snd (run d e args))) -> g = f) /\
  (f <> "stdout:" ->
   always_preceded is_open_log_file is_log_writer (trace (snd (run d e args))) = true) /\
  (forall c dst, In (ENewLogWriter c dst) (trace (snd (run d e args))) ->
     c = arg_colour args /\
     dst = if String.eqb "stdout:" f then LogToStdout else LogToFile f) /\
  (In ENewANSIColours (trace (snd (run d e args))) -> arg_colour args = true).
Proof.
  intros Hlf.
  pose proof (run_calls d e args) as Hcalls.
  split; [|split; [|split; [|split; [|split]]]].
  - now apply log_setup_made.
  - intros ->.
    apply (none_of_excluded (call_allowed d e args)); [|exact Hcalls].
    intros ev; destruct ev; simpl; rewrite ?Hlf; simpl;
      rewrite ?andb_false_r; first [reflexivity | discriminate].
  - intros g Hin. apply (forallb_member _ _ _ Hcalls) in Hin.
    simpl in Hin. rewrite Hlf in Hin.
    apply andb_prop in Hin. destruct Hin as [Hin _].
    now apply String.eqb_eq in Hin.
  - intros Hne. apply String.eqb_neq in Hne. rewrite String.eqb_sym in Hne.
    clear Hcalls.
    pose (Post := fun rw : Outcome * World =>
      always_preceded is_open_log_file is_log_writer (trace (snd rw)) = true).
    change (Post (run d e args)).
    destruct d; top_exec_with serve_behaviour ltac:(rewrite ?Hlf, ?Hne).
    all: enter_leaf Post; normalise_trace.
    all: unfold always_preceded;
      cbn [preceded_from is_open_log_file is_log_writer orb andb].
    all: first [reflexivity | apply preceded_from_seen].
  - intros c dst Hin. apply (forallb_member _ _ _ Hcalls) in Hin.
    simpl in Hin. rewrite Hlf in Hin.
    apply andb_prop in Hin. destruct Hin as [Hc Hdst].
    split; [now apply Bool.eqb_prop in Hc|].
    now apply log_dest_eqb_eq in Hdst.
  - intros Hin. apply (forallb_member _ _ _ Hcalls) in Hin.
    simpl in Hin. now rewrite Hlf in Hin.
Qed.

Lemma log_destination_follows_log_file_witness :
  filter is_log_setup
    (trace (snd (run ConfigMgrD calm_env (with_log_file system_log one_minute)))) =
    [EOpenLogFile system_log; ENewLogWriter false (LogToFile system_log)] /\
  filter is_log_setup
    (trace (snd (run NetCfgD calm_env
                   (with_colour (with_log_file "stdout:" one_minute))))) =
    [ENewANSIColours; ENewLogWriter true LogToStdout] /\
  always_preceded is_open_log_file is_log_writer
    (trace (snd (run ConfigMgrD calm_env (with_log_file system_log one_minute))))
  = true /\
  none_of is_open_log_file
    (trace (snd (run NetCfgD calm_env
                   (with_colour (with_log_file "stdout:" one_minute))))) = true.
Proof.
  destruct (log_destination_follows_log_file ConfigMgrD calm_env
              (with_log_file system_log one_minute) system_log eq_refl)
    as (Hmade & _ & _ & Horder & _).
  destruct (log_destination_follows_log_file NetCfgD calm_env
              (with_colour (with_log_file "stdout:" one_minute)) "stdout:" eq_refl)
    as (Hmade' & Hnone & _).
  split; [|split; [|split]].
  - apply Hmade; [repeat split | reflexivity].
  - apply Hmade'; [repeat split | reflexivity].
  - apply Horder. discriminate.
  - apply Hnone. reflexivity.
Defined.

(** ** The values of [idle-exit] and [log-level] *)

Lemma unsigned_of_negative (z : Z) :
  - 2 ^ 31 <= z < 0 -> to_unsigned_int z = z + 2 ^ 32.
Proof.
  intros H. unfold to_unsigned_int.
  symmetry. apply (Z.mod_unique z (2 ^ 32) (-1) (z + 2 ^ 32)); lia.
Qed.

Lemma atoi_without_number (v : string) :
  no_leading_number v = true -> atoi v = 0.
Proof.
  destruct v as [|c r]; [reflexivity|].
  simpl. intros H.
  apply andb_prop in H. destruct H as [H Hd].
  apply andb_prop in H. destruct H as [H Hp].
  apply andb_prop in H. destruct H as [Hs Hm].
  apply negb_true_iff in Hs, Hm, Hp.
  rewrite Hs, Hm, Hp.
  destruct (digit_of c); [discriminate Hd | reflexivity].
Qed.

Lemma watchdog_in_bootstrap (d : Daemon) (e : Env) (args : ParsedArgs) :
  (0 <? idle_wait_min d args) = true ->
  In EMainLoopRun (trace (snd (run d e args))) ->
  In (ENewIdleCheck (idle_wait_min d args)) (trace (snd (run d e args))).
Proof.
  intros Hpos Hrun.
  destruct (run_behaviour d e args) as (_ & Hboot & _).
  destruct (Hboot Hrun) as (pro & Hpro & _).
  rewrite (split_at_loop _ Hrun), Hpro.
  apply in_or_app. left. apply in_or_app. right.
  unfold orderly_bootstrap.
  destruct d; cbn [idle_wait_min] in *; rewrite Hpos;
    destruct (arg_signal_broadcast args);
    destruct (arg_state_dir args);
    destruct (0 <? NetCfg.log_level args); simpl; tauto.
Qed.

(** X3.  The value of [idle-exit] is converted to [unsigned int]: a negative
    number does not disable the idle checker but wraps around to a threshold
    of at least 2^31 minutes.  A run that reaches the loop has constructed
    the idle checker with that threshold, and configmgr then routes no
    signal to [stop_handler]. *)
Theorem negative_idle_exit_wraps_around
  (d : Daemon) (e : Env) (args : ParsedArgs) (v : string) :
  arg_idle_exit args = Some v ->
  - 2 ^ 31 <= atoi v < 0 ->
  idle_wait_min d args = atoi v + 2 ^ 32 /\
  (In EMainLoopRun (trace (snd (run d e args))) ->
   In (ENewIdleCheck (atoi v + 2 ^ 32)) (trace (snd (run d e args)))) /\
  none_of is_signal_add (trace (snd (run ConfigMgrD e args))) = true.
Proof.
  intros Hv Hneg.
  assert (Hidle : forall d', idle_wait_min d' args = atoi v + 2 ^ 32).
  { intros d'. destruct d'; cbn [idle_wait_min];
      unfold ConfigMgr.idle_wait_min, NetCfg.idle_wait_min; rewrite Hv;
      now apply unsigned_of_negative. }
  assert (Hpos : forall d', (0 <? idle_wait_min d' args) = true).
  { intros d'. rewrite Hidle. apply Z.ltb_lt. lia. }
  split; [apply Hidle|]. split.
  - intros Hrun. rewrite <- (Hidle d).
    now apply watchdog_in_bootstrap.
  - destruct (run_behaviour ConfigMgrD e args) as (Hocc & _).
    pose proof (Hpos ConfigMgrD) as Hp. cbn [idle_wait_min] in Hp.
    apply (none_of_excluded (may_occur ConfigMgrD args)); [|exact Hocc].
    intros ev; destruct ev; simpl; rewrite ?Hp;
      first [reflexivity | discriminate].
Qed.

Lemma negative_idle_exit_wraps_around_witness :
  idle_wait_min NetCfgD (with_idle_exit "-1" no_args) = 4294967295 /\
  In (ENewIdleCheck 4294967295)
    (trace (snd (run NetCfgD (with_schedule [signal_slot SIGTERM] calm_env)
                   (with_idle_exit "-1" no_args)))) /\
  none_of is_signal_add
    (trace (snd (run ConfigMgrD (with_schedule [signal_slot SIGTERM] calm_env)
                   (with_idle_exit "-1" no_args)))) = true.
Proof.
  assert (Hneg : - 2 ^ 31 <= atoi "-1" < 0)
    by (vm_compute; split; [discriminate | reflexivity]).
  destruct (negative_idle_exit_wraps_around NetCfgD
              (with_schedule [signal_slot SIGTERM] calm_env)
              (with_idle_exit "-1" no_args) "-1" eq_refl Hneg)
    as (Hidle & Hnew & Hsig).
  split; [exact Hidle|]. split; [|exact Hsig].
  apply Hnew. simpl. tauto.
Defined.

(** X4.  A value of [idle-exit] that does not start with a number is read
    as 0 by [std::atoi]: the idle checker is disabled, as with [idle-exit 0],
    and a configmgr run that reaches the loop has routed SIGINT and SIGTERM
    to [stop_handler]. *)
Theorem non_numeric_idle_exit_disables_watchdog
  (d : Daemon) (e : Env) (args : ParsedArgs) (v : string) :
  arg_idle_exit args = Some v ->
  no_leading_number v = true ->
  idle_wait_min d args = 0 /\
  none_of is_watchdog (trace (snd (run d e args))) = true /\
  (In EMainLoopRun (trace (snd (run ConfigMgrD e args))) ->
   In (ESignalAdd SIGINT) (trace (snd (run ConfigMgrD e args))) /\
   In (ESignalAdd SIGTERM) (trace (snd (run ConfigMgrD e args)))).
Proof.
  intros Hv Hnum.
  assert (Hidle : forall d', idle_wait_min d' args = 0).
  { intros d'. destruct d'; cbn [idle_wait_min];
      unfold ConfigMgr.idle_wait_min, NetCfg.idle_wait_min; rewrite Hv;
      now rewrite (atoi_without_number v Hnum). }
  split; [apply Hidle|]. split.
  - destruct (run_behaviour d e args) as (Hocc & _).
    apply (none_of_excluded (may_occur d args)); [|exact Hocc].
    intros ev; destruct ev; simpl; rewrite ?Hidle; simpl;
      first [reflexivity | discriminate].
  - intros Hrun.
    destruct (run_behaviour ConfigMgrD e args) as (_ & Hboot & _).
    destruct (Hboot Hrun) as (pro & Hpro & _).
    rewrite (split_at_loop _ Hrun), Hpro.
    pose proof (Hidle ConfigMgrD) as H0. cbn [idle_wait_min] in H0.
    unfold orderly_bootstrap. rewrite H0. cbn [Z.ltb Z.compare].
    split; apply in_or_app; left; apply in_or_app; right;
      destruct (arg_signal_broadcast args); destruct (arg_state_dir args);
      simpl; tauto.
Qed.

Lemma non_numeric_idle_exit_disables_watchdog_witness :
  idle_wait_min ConfigMgrD (with_idle_exit "never" no_args) = 0 /\
  none_of is_watchdog
    (trace (snd (run ConfigMgrD (with_schedule [signal_slot SIGINT] calm_env)
                   (with_idle_exit "never" no_args)))) = true /\
  In (ESignalAdd SIGINT)
    (trace (snd (run ConfigMgrD (with_schedule [signal_slot SIGINT] calm_env)
                   (with_idle_exit "never" no_args)))) /\
  In (ESignalAdd SIGTERM)
    (trace (snd (run ConfigMgrD (with_schedule [signal_slot SIGINT] calm_env)
                   (with_idle_exit "never" no_args)))).
Proof.
  destruct (non_numeric_idle_exit_disables_watchdog ConfigMgrD
              (with_schedule [signal_slot SIGINT] calm_env)
              (with_idle_exit "never" no_args) "never" eq_refl eq_refl)
    as (Hidle & Hnone & Hsig).
  split; [exact Hidle|]. split; [exact Hnone|].
  apply Hsig. vm_compute. tauto.
Defined.

(** ** Log level *)

Lemma unsigned_range (z : Z) : 0 <= to_unsigned_int z < 2 ^ 32.
Proof.
  unfold to_unsigned_int. apply Z.mod_pos_bound. lia.
Qed.

(** X5.  A configmgr run that reaches the loop has set the log level of its
    service exactly once, whatever the value: the value of [log-level] is
    converted to [unsigned int], so the level is never negative and a
    negative number wraps around.  Such a run does not call
    [SetDefaultLogLevel]. *)
Theorem configmgr_log_level_always_set (e : Env) (args : ParsedArgs) :
  In EMainLoopRun (trace (snd (ConfigMgr.main e args))) ->
  filter is_set_log_level (bootstrap_part (trace (snd (ConfigMgr.main e args)))) =
    [ESetLogLevel (ConfigMgr.log_level args)] /\
  0 <= ConfigMgr.log_level args < 2 ^ 32 /\
  (forall v, arg_log_level args = Some v -> - 2 ^ 31 <= atoi v < 0 ->
             ConfigMgr.log_level args = atoi v + 2 ^ 32).
Proof.
  intros Hrun.
  destruct (run_behaviour ConfigMgrD e args) as (_ & Hboot & _).
  cbn [run] in Hboot.
  destruct (Hboot Hrun) as (pro & Hpro & Hall).
  split; [|split].
  - rewrite Hpro, filter_app.
    rewrite (filter_excluded is_prologue is_set_log_level pro)
      by (try exact Hall; intros ev; destruct ev; simpl;
          first [reflexivity | discriminate]).
    unfold orderly_bootstrap.
    destruct (arg_signal_broadcast args); destruct (arg_state_dir args);
      destruct (0 <? ConfigMgr.idle_wait_min args); reflexivity.
  - unfold ConfigMgr.log_level. destruct (arg_log_level args).
    + apply unsigned_range.
    + lia.
  - unfold ConfigMgr.log_level. intros v -> Hneg.
    now apply unsigned_of_negative.
Qed.

Lemma configmgr_log_level_always_set_witness :
  filter is_set_log_level
    (bootstrap_part
       (trace (snd (ConfigMgr.main calm_env (with_log_level "-1" one_minute))))) =
    [ESetLogLevel (ConfigMgr.log_level (with_log_level "-1" one_minute))] /\
  ConfigMgr.log_level (with_log_level "-1" one_minute) = 4294967295.
Proof.
  assert (Hrun : In EMainLoopRun
            (trace (snd (ConfigMgr.main calm_env (with_log_level "-1" one_minute)))))
    by (vm_compute; tauto).
  destruct (configmgr_log_level_always_set calm_env
              (with_log_level "-1" one_minute) Hrun) as (Hset & _ & Hwrap).
  split; [exact Hset|].
  apply (Hwrap "-1" eq_refl).
  vm_compute. split; [discriminate | reflexivity].
Defined.

Lemma int_range (z : Z) : - 2 ^ 31 <= to_int z < 2 ^ 31.
Proof.
  unfold to_int.
  pose proof (Z.mod_pos_bound (z + 2 ^ 31) (2 ^ 32) ltac:(lia)). lia.
Qed.

Lemma int_of_int (z : Z) : - 2 ^ 31 <= z < 2 ^ 31 -> to_int z = z.
Proof.
  intros H. unfold to_int. rewrite Z.mod_small; lia.
Qed.

Lemma int_of_large (z : Z) : 2 ^ 31 <= z < 2 ^ 32 -> to_int z = z - 2 ^ 32.
Proof.
  intros H. unfold to_int.
  rewrite <- (Z.mod_unique (z + 2 ^ 31) (2 ^ 32) 1 (z - 2 ^ 31)); lia.
Qed.

(** X6.  netcfg keeps the value of [log-level] in an [int] and passes it to
    its service only when it is positive: with 0, with a negative number,
    with a number from 2^31 on that the [int] holds as a negative one, or
    without [log-level], no run calls [SetDefaultLogLevel]; with a positive
    number a run that reaches the loop has called it once, with that number,
    and a run in which no call raises does reach the loop.  No such run calls
    [SetLogLevel]. *)
Theorem netcfg_log_level_set_only_when_positive (e : Env) (args : ParsedArgs) :
  (NetCfg.log_level args <= 0 ->
   none_of is_set_log_level (trace (snd (NetCfg.main e args))) = true) /\
  (0 < NetCfg.log_level args ->
   In EMainLoopRun (trace (snd (NetCfg.main e args))) ->
   filter is_set_log_level (bootstrap_part (trace (snd (NetCfg.main e args)))) =
     [ESetDefaultLogLevel (NetCfg.log_level args)]) /\
  (0 < NetCfg.log_level args ->
   (forall ev, throws e ev = None) ->
   can_start NetCfgD e ->
   In EMainLoopRun (trace (snd (NetCfg.main e args))) /\
   filter is_set_log_level (bootstrap_part (trace (snd (NetCfg.main e args)))) =
     [ESetDefaultLogLevel (NetCfg.log_level args)]) /\
  (arg_log_level args = None ->
   none_of is_set_log_level (trace (snd (NetCfg.main e args))) = true) /\
  - 2 ^ 31 <= NetCfg.log_level args < 2 ^ 31 /\
  (forall v, arg_log_level args = Some v ->
     (- 2 ^ 31 <= atoi v < 2 ^ 31 -> NetCfg.log_level args = atoi v) /\
     (2 ^ 31 <= atoi v < 2 ^ 32 ->
      NetCfg.log_level args = atoi v - 2 ^ 32 /\
      none_of is_set_log_level (trace (snd (NetCfg.main e args))) = true)).
Proof.
  assert (Hnone : NetCfg.log_level args <= 0 ->
                  none_of is_set_log_level (trace (snd (NetCfg.main e args))) = true).
  { intros Hle. apply Z.ltb_ge in Hle.
    apply (none_of_excluded (call_allowed NetCfgD e args));
      [|apply (run_calls NetCfgD)].
    intros ev; destruct ev; simpl; rewrite ?Hle;
      first [reflexivity | discriminate]. }
  assert (Hset : 0 < NetCfg.log_level args ->
                 In EMainLoopRun (trace (snd (NetCfg.main e args))) ->
                 filter is_set_log_level
                   (bootstrap_part (trace (snd (NetCfg.main e args)))) =
                 [ESetDefaultLogLevel (NetCfg.log_level args)]).
  { intros Hpos Hrun. apply Z.ltb_lt in Hpos.
    destruct (run_behaviour NetCfgD e args) as (_ & Hboot & _).
    cbn [run] in Hboot.
    destruct (Hboot Hrun) as (pro & Hpro & Hall).
    rewrite Hpro, filter_app.
    rewrite (filter_excluded is_prologue is_set_log_level pro)
      by (try exact Hall; intros ev; destruct ev; simpl;
          first [reflexivity | discriminate]).
    unfold orderly_bootstrap. rewrite Hpos.
    destruct (arg_signal_broadcast args);
      destruct (0 <? NetCfg.idle_wait_min args); reflexivity. }
  split; [exact Hnone|]. split; [exact Hset|]. split; [|split; [|split]].
  - intros Hpos Hnf Hstart.
    destruct (undisturbed_run_reaches_loop NetCfgD e args Hnf Hstart) as (Hrun & _).
    cbn [run] in Hrun. split; [exact Hrun | exact (Hset Hpos Hrun)].
  - intros Hlvl. apply Hnone. unfold NetCfg.log_level. rewrite Hlvl. lia.
  - unfold NetCfg.log_level. destruct (arg_log_level args).
    + apply int_range.
    + lia.
  - intros v Hv. split.
    + intros Hin. unfold NetCfg.log_level. rewrite Hv. now apply int_of_int.
    + intros Hbig.
      assert (Hlvl : NetCfg.log_level args = atoi v - 2 ^ 32)
        by (unfold NetCfg.log_level; rewrite Hv; now apply int_of_large).
      split; [exact Hlvl|]. apply Hnone. lia.
Qed.

Lemma netcfg_log_level_set_only_when_positive_witness :
  none_of is_set_log_level
    (trace (snd (NetCfg.main calm_env (with_log_level "0" one_minute)))) = true /\
  filter is_set_log_level
    (bootstrap_part
       (trace (snd (NetCfg.main calm_env (with_log_level "6" one_minute))))) =
    [ESetDefaultLogLevel 6] /\
  (In EMainLoopRun
     (trace (snd (NetCfg.main calm_env (with_log_level "6" one_minute)))) /\
   filter is_set_log_level
     (bootstrap_part
        (trace (snd (NetCfg.main calm_env (with_log_level "6" one_minute))))) =
     [ESetDefaultLogLevel 6]) /\
  none_of is_set_log_level (trace (snd (NetCfg.main calm_env one_minute))) = true /\
  (NetCfg.log_level (with_log_level "2147483648" one_minute) = - 2147483648 /\
   none_of is_set_log_level
     (trace (snd (NetCfg.main calm_env (with_log_level "2147483648" one_minute))))
   = true).
Proof.
  split; [|split; [|split; [|split]]].
  - apply (proj1 (netcfg_log_level_set_only_when_positive calm_env
                    (with_log_level "0" one_minute))).
    vm_compute. discriminate.
  - apply (proj1 (proj2 (netcfg_log_level_set_only_when_positive calm_env
                           (with_log_level "6" one_minute)))).
    + reflexivity.
    + vm_compute. tauto.
  - apply (proj1 (proj2 (proj2 (netcfg_log_level_set_only_when_positive calm_env
                                  (with_log_level "6" one_minute))))).
    + reflexivity.
    + intros ev. reflexivity.
    + repeat split.
  - apply (proj1 (proj2 (proj2 (proj2
             (netcfg_log_level_set_only_when_positive calm_env one_minute))))).
    reflexivity.
  - destruct (netcfg_log_level_set_only_when_positive calm_env
                (with_log_level "2147483648" one_minute))
      as (_ & _ & _ & _ & _ & Hint).
    apply (proj2 (Hint "2147483648" eq_refl)).
    vm_compute. split; [discriminate | reflexivity].
Defined.

(** ** State directory *)

(** X7.  configmgr sets the state directory of its service exactly when
    [state-dir] is given, and restricts the file mode creation mask only
    then and only afterwards: a run that reaches the loop has called
    [SetStateDirectory] with the given directory and then [umask], once each;
    without [state-dir] no run makes either call.  netcfg never makes
    them. *)
Theorem state_directory_then_umask (e : Env) (args : ParsedArgs) :
  (forall dir, arg_state_dir args = Some dir ->
     In EMainLoopRun (trace (snd (ConfigMgr.main e args))) ->
     filter is_state_dir (bootstrap_part (trace (snd (ConfigMgr.main e args)))) =
       [ESetStateDirectory dir; EUmask]) /\
  (arg_state_dir args = None ->
   none_of is_state_dir (trace (snd (ConfigMgr.main e args))) = true) /\
  none_of is_state_dir (trace (snd (NetCfg.main e args))) = true.
Proof.
  split; [|split].
  - intros dir Hsd Hrun.
    destruct (run_behaviour ConfigMgrD e args) as (_ & Hboot & _).
    cbn [run] in Hboot.
    destruct (Hboot Hrun) as (pro & Hpro & Hall).
    rewrite Hpro, filter_app.
    rewrite (filter_excluded is_prologue is_state_dir pro)
      by (try exact Hall; intros ev; destruct ev; simpl;
          first [reflexivity | discriminate]).
    unfold orderly_bootstrap. rewrite Hsd.
    destruct (arg_signal_broadcast args);
      destruct (0 <? ConfigMgr.idle_wait_min args); reflexivity.
  - intros Hsd.
    apply (none_of_excluded (call_allowed ConfigMgrD e args));
      [|apply (run_calls ConfigMgrD)].
    intros ev; destruct ev; simpl; rewrite ?Hsd;
      first [reflexivity | discriminate].
  - apply (none_of_excluded (call_allowed NetCfgD e args));
      [|apply (run_calls NetCfgD)].
    intros ev; destruct ev; simpl; first [reflexivity | discriminate].
Qed.

Lemma state_directory_then_umask_witness :
  filter is_state_dir
    (bootstrap_part
       (trace (snd (ConfigMgr.main calm_env
                      (with_state_dir "/var/lib/openvpn3/configs" one_minute))))) =
    [ESetStateDirectory "/var/lib/openvpn3/configs"; EUmask] /\
  none_of is_state_dir (trace (snd (ConfigMgr.main calm_env one_minute))) = true.
Proof.
  split.
  - apply (proj1 (state_directory_then_umask calm_env
                    (with_state_dir "/var/lib/openvpn3/configs" one_minute))).
    + reflexivity.
    + vm_compute. tauto.
  - apply (proj1 (proj2 (state_directory_then_umask calm_env one_minute))).
    reflexivity.
Defined.

(** ** Privileges and the bus connection *)

Lemma none_of_after_first (p q : Event -> bool) (tr : list Event) :
  none_of q tr = true -> none_of q (after_first p tr) = true.
Proof.
  rewrite !none_of_spec. intros H.
  induction tr as [|a tr IH]; [intros ev []|].
  simpl. destruct (p a).
  - intros ev Hin. apply H. now right.
  - apply IH. intros ev Hin. apply H. now right.
Qed.

Lemma startup_not_privilege (ev : Event) :
  is_startup ev = false -> is_privilege ev = false.
Proof.
  destruct ev; simpl; intros H; first [reflexivity | discriminate H].
Qed.

(** X8.  Both daemons settle their privileges before they connect to the
    bus and do not touch them afterwards: the bus connection is constructed
    only after [drop_root()] (configmgr) or [capng_apply] (netcfg), and no
    privilege call follows the construction of the bus connection. *)
Theorem privileges_settled_before_bus_connection (e : Env) (args : ParsedArgs) :
  always_preceded is_drop_root is_bus_connect
    (trace (snd (ConfigMgr.main e args))) = true /\
  always_preceded is_capng_apply is_bus_connect
    (trace (snd (NetCfg.main e args))) = true /\
  none_of is_privilege
    (after_first is_bus_connect (trace (snd (ConfigMgr.main e args)))) = true /\
  none_of is_privilege
    (after_first is_bus_connect (trace (snd (NetCfg.main e args)))) = true.
Proof.
  assert (HC :
    always_preceded is_drop_root is_bus_connect
      (trace (snd (ConfigMgr.main e args))) = true /\
    none_of is_privilege
      (after_first is_bus_connect (trace (snd (ConfigMgr.main e args)))) = true).
  { pose (Post := fun rw : Outcome * World =>
      always_preceded is_drop_root is_bus_connect (trace (snd rw)) = true /\
      none_of is_privilege (after_first is_bus_connect (trace (snd rw))) = true).
    change (Post (ConfigMgr.main e args)).
    top_exec_with serve_behaviour idtac.
    all: enter_leaf Post; normalise_trace.
    all: unfold always_preceded;
      cbn [preceded_from after_first is_drop_root is_bus_connect orb andb].
    all: split; [first [reflexivity | apply preceded_from_seen]|].
    all: first [reflexivity | apply none_of_after_first; apply none_of_spec].
    all: absent_after_startup startup_not_privilege negb_startup
           (@forallb_member Event). }
  assert (HN :
    always_preceded is_capng_apply is_bus_connect
      (trace (snd (NetCfg.main e args))) = true /\
    none_of is_privilege
      (after_first is_bus_connect (trace (snd (NetCfg.main e args)))) = true).
  { pose (Post := fun rw : Outcome * World =>
      always_preceded is_capng_apply is_bus_connect (trace (snd rw)) = true /\
      none_of is_privilege (after_first is_bus_connect (trace (snd rw))) = true).
    change (Post (NetCfg.main e args)).
    top_exec_with serve_behaviour idtac.
    all: enter_leaf Post; normalise_trace.
    all: unfold always_preceded;
      cbn [preceded_from after_first is_capng_apply is_bus_connect orb andb].
    all: split; [first [reflexivity | apply preceded_from_seen]|].
    all: first [reflexivity | apply none_of_after_first; apply none_of_spec].
    all: absent_after_startup startup_not_privilege negb_startup
           (@forallb_member Event). }
  tauto.
Qed.

(** ** Debug options *)

Lemma open_log_destination_env (args : ParsedArgs) (w : World) :
  env (snd (open_log_destination args w)) = env w.
Proof.
  unfold open_log_destination.
  destruct (arg_log_file args) as [f|]; [|reflexivity].
  unfold bind, call, call_c, ret, throw, record_event, record_events.
  destruct (negb (String.eqb "stdout:" f)); destruct (arg_colour args); simpl;
    repeat match goal with
    | |- context [throws ?e ?ev] => destruct (throws e ev)
    end; reflexivity.
Qed.

Lemma restrict_privileges_release (args : ParsedArgs) (w : World) :
  DEBUG_OPTIONS (env w) = false ->
  NetCfg.restrict_privileges args w =
  NetCfg.restrict_privileges (clear_debug_flags args) w.
Proof.
  intros Hdbg.
  unfold NetCfg.restrict_privileges, bind, ask, call_c, record_event,
    record_events.
  cbn [env]. rewrite Hdbg. reflexivity.
Qed.

(** X9.  The options [disable-capabilities] and [run-as-root] only exist in
    a build with [DEBUG_OPTIONS]: in a build without, a run of netcfg is the
    same whatever their values. *)
Theorem debug_options_inert_in_release_build (e : Env) (args : ParsedArgs) :
  DEBUG_OPTIONS e = false ->
  NetCfg.main e args = NetCfg.main e (clear_debug_flags args).
Proof.
  intros Hdbg.
  unfold NetCfg.main, NetCfg.main_body. f_equal.
  unfold try_catch, RunCommand, bind.
  destruct (call ERunCommand (init_world e)) as [r1 w1] eqn:Hcall.
  destruct r1; try reflexivity.
  assert (Henv : env w1 = e).
  { unfold call, record_event, record_events in Hcall. cbn in Hcall.
    destruct (throws e ERunCommand); injection Hcall as _ <-; reflexivity. }
  assert (Hmain : NetCfg.netcfg_main args w1 =
                  NetCfg.netcfg_main (clear_debug_flags args) w1).
  { unfold NetCfg.netcfg_main, bind, ask.
    destruct (negb (0 =? getegid (env w1)) || negb (0 =? geteuid (env w1)));
      [reflexivity|].
    change (open_log_destination (clear_debug_flags args))
      with (open_log_destination args).
    pose proof (open_log_destination_env args w1) as Hlog.
    destruct (open_log_destination args w1) as [r2 w2].
    destruct r2; try reflexivity.
    cbn [snd] in Hlog.
    rewrite <- (restrict_privileges_release args w2) by congruence.
    reflexivity. }
  rewrite Hmain. reflexivity.
Qed.

Lemma debug_options_inert_in_release_build_witness :
  NetCfg.main calm_env (with_debug_flags true true one_minute) =
  NetCfg.main calm_env (clear_debug_flags (with_debug_flags true true one_minute)).
Proof.
  apply (debug_options_inert_in_release_build calm_env
           (with_debug_flags true true one_minute)).
  reflexivity.
Defined.

(** X10.  In a debug build, [run-as-root] makes netcfg keep its identity:
    no run looks up the user or the group or calls [capng_change_id]; and
    [disable-capabilities] makes it add no capability: no run calls
    [capng_update]. *)
Theorem debug_options_skip_privilege_calls (e : Env) (args : ParsedArgs) :
  DEBUG_OPTIONS e = true ->
  (arg_run_as_root args = true ->
   none_of (fun ev => is_lookup ev || is_change_id ev)
     (trace (snd (NetCfg.main e args))) = true) /\
  (arg_disable_capabilities args = true ->
   forall ts c, ~ In (ECapngUpdateAdd ts c) (trace (snd (NetCfg.main e args)))).
Proof.
  intros Hdbg.
  pose proof (run_calls NetCfgD e args) as Hcalls. cbn [run] in Hcalls.
  split.
  - intros Hroot.
    apply (none_of_excluded (call_allowed NetCfgD e args)); [|exact Hcalls].
    intros ev; destruct ev; simpl; rewrite ?Hdbg, ?Hroot; simpl;
      first [reflexivity | discriminate].
  - intros Hcaps ts c Hin.
    apply (forallb_member _ _ _ Hcalls) in Hin.
    simpl in Hin. rewrite Hdbg, Hcaps in Hin. discriminate Hin.
Qed.

Lemma debug_options_skip_privilege_calls_witness :
  none_of (fun ev => is_lookup ev || is_change_id ev)
    (trace (snd (NetCfg.main (debug_build calm_env)
                   (with_debug_flags true true one_minute)))) = true /\
  forall ts c,
    ~ In (ECapngUpdateAdd ts c)
        (trace (snd (NetCfg.main (debug_build calm_env)
                       (with_debug_flags true true one_minute)))).
Proof.
  destruct (debug_options_skip_privilege_calls (debug_build calm_env)
              (with_debug_flags true true one_minute) eq_refl) as (Hroot & Hcaps).
  split; [apply Hroot | apply Hcaps]; reflexivity.
Defined.

(** ** Capabilities applied *)

Lemma same_capabilities (a b : list Capability) :
  same_list Capability_eqb a b = true -> a = b.
Proof.
  revert b. induction a as [|x a IH]; intros [|y b] H; try discriminate H.
  - reflexivity.
  - simpl in H. apply andb_prop in H. destruct H as [_ H].
    destruct x, y. f_equal. now apply IH.
Qed.

Lemma state_at_apply_sound ok (pre post : list Event) (ev : Event) : forall s,
  state_at_apply ok s (pre ++ ev :: post) = true ->
  is_capng_apply ev = true ->
  ok (fold_left Capng.step pre s) = true.
Proof.
  induction pre as [|a pre IH]; intros s H Hev; simpl in H.
  - rewrite Hev in H. apply andb_prop in H. exact (proj1 H).
  - apply andb_prop in H. destruct H as [_ H]. simpl. now apply IH.
Qed.

Lemma state_at_apply_without ok (tr : list Event) : forall s,
  (forall ev, In ev tr -> is_capng_apply ev = false) ->
  state_at_apply ok s tr = true.
Proof.
  induction tr as [|a tr IH]; intros s H; [reflexivity|].
  simpl. rewrite (H a (or_introl eq_refl)). simpl. apply IH.
  intros ev Hin. apply H. now right.
Qed.

Lemma startup_not_apply (ev : Event) :
  is_startup ev = false -> is_capng_apply ev = false.
Proof.
  destruct ev; simpl; intros H; first [reflexivity | discriminate H].
Qed.

Lemma kept_at_every_apply (e : Env) (args : ParsedArgs) :
  state_at_apply (holds_exactly (kept_capabilities e args)) (Capng.interp [])
    (trace (snd (NetCfg.main e args))) = true.
Proof.
  pose (Post := fun rw : Outcome * World =>
    state_at_apply (holds_exactly (kept_capabilities e args)) (Capng.interp [])
      (trace (snd rw)) = true).
  change (Post (NetCfg.main e args)).
  top_exec_with serve_behaviour idtac.
  all: enter_leaf Post; normalise_trace.
  all: unfold kept_capabilities, holds_exactly; rewrite_conds.
  all: cbn [state_at_apply is_capng_apply Capng.interp fold_left Capng.step
            Capng.has_type existsb Capng.effective Capng.permitted
            same_list Capability_eqb orb andb negb].
  all: first [reflexivity | apply state_at_apply_without].
  all: absent_after_startup startup_not_apply negb_startup
         (@forallb_member Event).
Qed.

(** X11.  Whenever netcfg applies its capability state ([capng_apply]) the
    state built up by the calls made before holds exactly [CAP_NET_ADMIN] in
    the effective and in the permitted set; in a debug build with
    [disable-capabilities] both sets are empty at that point. *)
Theorem capabilities_applied (e : Env) (args : ParsedArgs)
  (pre post : list Event) :
  trace (snd (NetCfg.main e args)) = pre ++ ECapngApply :: post ->
  Capng.effective (Capng.interp pre) = kept_capabilities e args /\
  Capng.permitted (Capng.interp pre) = kept_capabilities e args.
Proof.
  intros Htr.
  pose proof (kept_at_every_apply e args) as H.
  rewrite Htr in H.
  apply (state_at_apply_sound _ pre post _ _) in H; [|reflexivity].
  unfold holds_exactly in H. apply andb_prop in H. destruct H as [He Hp].
  split; now apply same_capabilities.
Qed.

Lemma capabilities_applied_witness :
  Capng.effective
    (Capng.interp
       [ERunCommand; ECapngClear; ELookupUid; ELookupGid;
        ECapngChangeId 990 990 [CAPNG_DROP_SUPP_GRP; CAPNG_CLEAR_BOUNDING]]) = [] /\
  Capng.permitted
    (Capng.interp
       [ERunCommand; ECapngClear; ELookupUid; ELookupGid;
        ECapngChangeId 990 990 [CAPNG_DROP_SUPP_GRP; CAPNG_CLEAR_BOUNDING]]) = [].
Proof.
  apply (capabilities_applied (debug_build calm_env)
           (with_debug_flags true false one_minute)
           [ERunCommand; ECapngClear; ELookupUid; ELookupGid;
            ECapngChangeId 990 990 [CAPNG_DROP_SUPP_GRP; CAPNG_CLEAR_BOUNDING]]
           (skipn 6 (trace (snd (NetCfg.main (debug_build calm_env)
                                   (with_debug_flags true false one_minute)))))).
  vm_compute. reflexivity.
Defined.

(** ** The identity switch *)

(** X12.  netcfg switches identity at most once in a run, to the user and
    the group it looked up, dropping the supplementary groups and clearing
    the bounding set.  Unless a debug build runs with [run-as-root],
    [capng_apply] is only reached after that switch, and the switch has
    returned 0. *)
Theorem identity_switch_made_once (e : Env) (args : ParsedArgs) :
  (filter is_change_id (trace (snd (NetCfg.main e args))) = [] \/
   filter is_change_id (trace (snd (NetCfg.main e args))) =
     [ECapngChangeId (lookup_uid e) (lookup_gid e)
        [CAPNG_DROP_SUPP_GRP; CAPNG_CLEAR_BOUNDING]]) /\
  (DEBUG_OPTIONS e && arg_run_as_root args = false ->
   In ECapngApply (trace (snd (NetCfg.main e args))) ->
   filter is_change_id (trace (snd (NetCfg.main e args))) =
     [ECapngChangeId (lookup_uid e) (lookup_gid e)
        [CAPNG_DROP_SUPP_GRP; CAPNG_CLEAR_BOUNDING]] /\
   capng_change_id_result e = 0).
Proof.
  pose (Post := fun rw : Outcome * World =>
    (filter is_change_id (trace (snd rw)) = [] \/
     filter is_change_id (trace (snd rw)) =
       [ECapngChangeId (lookup_uid e) (lookup_gid e)
          [CAPNG_DROP_SUPP_GRP; CAPNG_CLEAR_BOUNDING]]) /\
    (DEBUG_OPTIONS e && arg_run_as_root args = false ->
     In ECapngApply (trace (snd rw)) ->
     filter is_change_id (trace (snd rw)) =
       [ECapngChangeId (lookup_uid e) (lookup_gid e)
          [CAPNG_DROP_SUPP_GRP; CAPNG_CLEAR_BOUNDING]] /\
     capng_change_id_result e = 0)).
  change (Post (NetCfg.main e args)).
  top_exec_with serve_behaviour idtac.
  all: enter_leaf Post; normalise_trace.
  all: cbn [filter is_change_id].
  all: try drop_rest filter_absent startup_not_switch negb_startup
             (@forallb_member Event).
  all: split; [first [left; reflexivity | right; reflexivity]|].
  all: intros Hdbg Hin.
  all: try solve [exfalso; rewrite_conds; discriminate Hdbg].
  all: try solve [exfalso; simpl in Hin;
                  repeat (destruct Hin as [Hin|Hin]; [discriminate Hin|]);
                  exact Hin].
  all: split; [reflexivity|].
  all: match goal with
       | H : (0 =? capng_change_id_result _) = true |- _ =>
           apply Z.eqb_eq in H; symmetry; exact H
       end.
Qed.

Lemma identity_switch_made_once_witness :
  filter is_change_id (trace (snd (NetCfg.main calm_env one_minute))) =
    [ECapngChangeId 990 990 [CAPNG_DROP_SUPP_GRP; CAPNG_CLEAR_BOUNDING]] /\
  capng_change_id_result calm_env = 0.
Proof.
  apply (proj2 (identity_switch_made_once calm_env one_minute)).
  - reflexivity.
  - vm_compute. tauto.
Defined.

Lemma startup_not_lookup (ev : Event) :
  is_startup ev = false -> is_lookup ev = false.
Proof.
  destruct ev; simpl; intros H; first [reflexivity | discriminate H].
Qed.

(** The lookup [ev] of the trace is claimed to have raised [x]: it did, or
    the claim is absurd. *)
Ltac lookup_raised ev Hlk Hin Hr not_lookup not_startup member :=
  member_cases Hin;
  first
    [ subst; discriminate Hlk
    | subst; unfold raises in Hr; cbn [is_c_call] in Hr;
      match type of Hr with
      | throws ?e ?c = Some _ =>
          match goal with
          | H : throws e c = None |- _ => rewrite H in Hr; discriminate Hr
          | H : throws e c = Some _ |- _ => rewrite H in Hr; injection Hr as <-
          end
      end
    | match goal with
      | Hnop : forallb (fun ev => negb (is_startup ev)) ?l = true |- _ =>
          apply in_rev in Hin;
          rewrite (not_lookup _ (not_startup _ _ Hnop Hin)) in Hlk;
          discriminate Hlk
      end
    | match goal with
      | Hu : forallb is_destroy ?u = true |- _ =>
          let H := fresh in
          pose proof (member _ _ _ Hu Hin) as H;
          destruct ev; first [discriminate Hlk | discriminate H]
      end ].

(** X13.  When the lookup of the user or of the group raises an exception,
    netcfg makes no identity switch, applies no capability state and does
    not connect to the bus: the exception is raised outside the [try] block,
    so [main] returns 2 if it is a [CommandException] and is left by the
    exception otherwise. *)
Theorem failed_lookup_aborts_startup
  (e : Env) (args : ParsedArgs) (ev : Event) (x : ExnClass) :
  is_lookup ev = true ->
  In ev (trace (snd (NetCfg.main e args))) ->
  raises e ev = Some x ->
  none_of (fun ev => is_change_id ev || is_capng_apply ev || is_bus_connect ev)
    (trace (snd (NetCfg.main e args))) = true /\
  fst (NetCfg.main e args) =
    if catches e CommandException x then Exit 2 else Terminate x.
Proof.
  intros Hlk.
  pose (Post := fun rw : Outcome * World =>
    In ev (trace (snd rw)) ->
    raises e ev = Some x ->
    none_of (fun ev => is_change_id ev || is_capng_apply ev || is_bus_connect ev)
      (trace (snd rw)) = true /\
    fst rw = if catches e CommandException x then Exit 2 else Terminate x).
  change (Post (NetCfg.main e args)).
  top_exec_with serve_behaviour idtac.
  all: enter_leaf Post; normalise_trace.
  all: intros Hin Hr.
  all: lookup_raised ev Hlk Hin Hr startup_not_lookup negb_startup
         (@forallb_member Event).
  all: rewrite_conds; split; reflexivity.
Qed.

Lemma failed_lookup_aborts_startup_witness :
  none_of (fun ev => is_change_id ev || is_capng_apply ev || is_bus_connect ev)
    (trace (snd (NetCfg.main (with_throws lookup_fails calm_env) one_minute)))
  = true /\
  fst (NetCfg.main (with_throws lookup_fails calm_env) one_minute) =
    Terminate (OtherClass "LookupException").
Proof.
  apply (failed_lookup_aborts_startup (with_throws lookup_fails calm_env)
           one_minute ELookupUid (OtherClass "LookupException")).
  - reflexivity.
  - vm_compute. tauto.
  - reflexivity.
Defined.

(** ** A failing detach *)

Lemma destroy_not_idle_stop (ev : Event) :
  is_destroy ev = true -> is_idle_stop ev = false.
Proof.
  destruct ev; simpl; intros H; first [reflexivity | discriminate H].
Qed.

Ltac detach_was_served Hin member :=
  member_cases Hin;
  first
    [ apply in_rev in Hin; exact Hin
    | match goal with
      | Hu : forallb is_destroy ?u = true |- _ =>
          let H := fresh in
          pose proof (member _ _ _ Hu Hin) as H; discriminate H
      end ].

Ltac was_served H :=
  repeat (apply in_cons);
  first [ apply -> in_rev; exact H
        | apply in_or_app; left; apply -> in_rev; exact H ].

Ltac no_idle_stop Hnone spec member not_stop :=
  let ev := fresh "ev" in let Hin := fresh "Hin" in
  apply spec; intros ev Hin; member_cases Hin;
  first
    [ apply in_rev in Hin; exact (proj1 (spec _ _) Hnone _ Hin)
    | match goal with
      | Hu : forallb is_destroy ?u = true |- _ =>
          exact (not_stop _ (member _ _ _ Hu Hin))
      end ].

(** X14.  The detach from the logging relay comes after the release of the
    loop object and before the idle checker is stopped: when the detach
    raises, the run has released the loop object but calls neither [Disable]
    nor [Join], although with a positive threshold the idle checker had been
    enabled. *)
Theorem failed_detach_skips_watchdog_stop
  (d : Daemon) (e : Env) (args : ParsedArgs) (x : ExnClass) :
  In (EDetach (log_interface d)) (trace (snd (run d e args))) ->
  raises e (EDetach (log_interface d)) = Some x ->
  none_of is_idle_stop (trace (snd (run d e args))) = true /\
  In EMainLoopUnref (trace (snd (run d e args))) /\
  (0 < idle_wait_min d args -> In EIdleEnable (trace (snd (run d e args)))).
Proof.
  intros Hdet Hr. revert Hdet.
  pose (Post := fun rw : Outcome * World =>
    In (EDetach (log_interface d)) (trace (snd rw)) ->
    none_of is_idle_stop (trace (snd rw)) = true /\
    In EMainLoopUnref (trace (snd rw)) /\
    (0 < idle_wait_min d args -> In EIdleEnable (trace (snd rw)))).
  change (Post (run d e args)).
  destruct d; top_exec_details serve_behaviour serve_calls idtac.
  all: enter_leaf Post; normalise_trace.
  all: intros Hin.
  all: try solve [exfalso; simpl in Hin;
                  repeat (destruct Hin as [Hin|Hin]; [discriminate Hin|]);
                  exact Hin].
  all: match goal with
       | Hfail : forall x, In _ ?l -> _ -> _ |- _ =>
           let Hl := fresh "Hl" in
           assert (Hl : In (EDetach (log_interface _)) l)
             by detach_was_served Hin (@forallb_member Event);
           destruct (Hfail x Hl Hr) as (Hnone & Hunref & Hen); clear Hfail
       end.
  all: split; [no_idle_stop Hnone none_of_spec (@forallb_member Event)
                 destroy_not_idle_stop|].
  all: split; [was_served Hunref|].
  all: intros Hpos; apply Z.ltb_lt in Hpos; apply Hen in Hpos;
    was_served Hpos.
Qed.

Lemma failed_detach_skips_watchdog_stop_witness :
  none_of is_idle_stop
    (trace (snd (run NetCfgD
                   (with_throws detach_fails
                      (with_schedule [signal_slot SIGTERM] calm_env))
                   one_minute))) = true /\
  In EMainLoopUnref
    (trace (snd (run NetCfgD
                   (with_throws detach_fails
                      (with_schedule [signal_slot SIGTERM] calm_env))
                   one_minute))) /\
  In EIdleEnable
    (trace (snd (run NetCfgD
                   (with_throws detach_fails
                      (with_schedule [signal_slot SIGTERM] calm_env))
                   one_minute))).
Proof.
  destruct (failed_detach_skips_watchdog_stop NetCfgD
              (with_throws detach_fails
                 (with_schedule [signal_slot SIGTERM] calm_env))
              one_minute LogServiceProxyException)
    as (Hnone & Hunref & Hen).
  - vm_compute. tauto.
  - reflexivity.
  - split; [exact Hnone|]. split; [exact Hunref|].
    apply Hen. reflexivity.
Defined.

(** ** A refused command line *)

(** X15.  When the parsing of the command line raises an exception the
    command function is not entered: the run consists of [drop_root()]
    (configmgr only), the parser and the messages of the handler in [main],
    which returns 2 for the exceptions it catches. *)
Theorem refused_command_line_starts_nothing
  (d : Daemon) (e : Env) (args : ParsedArgs) (x : ExnClass) :
  In ERunCommand (trace (snd (run d e args))) ->
  raises e ERunCommand = Some x ->
  forallb is_parse_stage (trace (snd (run d e args))) = true /\
  fst (run d e args) =
    match d with
    | ConfigMgrD => ConfigMgr_on_exception e x
    | NetCfgD => if catches e CommandException x then Exit 2 else Terminate x
    end.
Proof.
  intros Hin Hr. revert Hin.
  unfold raises in Hr. cbn [is_c_call] in Hr.
  pose (Post := fun rw : Outcome * World =>
    In ERunCommand (trace (snd rw)) ->
    forallb is_parse_stage (trace (snd rw)) = true /\
    fst rw =
      match d with
      | ConfigMgrD => ConfigMgr_on_exception e x
      | NetCfgD => if catches e CommandException x then Exit 2 else Terminate x
      end).
  change (Post (run d e args)).
  destruct d; top_exec_with serve_behaviour ltac:(rewrite ?Hr).
  all: enter_leaf Post; normalise_trace.
  all: intros Hin.
  all: try solve [exfalso; simpl in Hin;
                  repeat (destruct Hin as [Hin|Hin]; [discriminate Hin|]);
                  exact Hin].
  all: unfold ConfigMgr_on_exception; rewrite_conds; split; reflexivity.
Qed.

Lemma refused_command_line_starts_nothing_witness :
  forallb is_parse_stage
    (trace (snd (run ConfigMgrD (with_throws parse_fails calm_env) no_args)))
  = true /\
  fst (run ConfigMgrD (with_throws parse_fails calm_env) no_args) = Exit 2.
Proof.
  apply (refused_command_line_starts_nothing ConfigMgrD
           (with_throws parse_fails calm_env) no_args CommandException).
  - vm_compute. tauto.
  - reflexivity.
Defined.

(** ** Automatic objects *)

Lemma live_objects_app (e : Env) (a b : list Event) : forall live,
  live_objects e live (a ++ b) =
  match live_objects e live a with
  | Some live' => live_objects e live' b
  | None => None
  end.
Proof.
  induction a as [|ev a IH]; intros live; [reflexivity|].
  destruct ev; simpl; try apply IH.
  destruct live as [|o' live']; [reflexivity|].
  destruct (Object_eqb o o'); [apply IH | reflexivity].
Qed.

Lemma live_objects_unwind (e : Env) (objs : list Object) (r : list Event) :
  live_objects e objs (map EDestroy objs ++ r) = live_objects e [] r.
Proof.
  induction objs as [|o objs IH]; [reflexivity|].
  simpl. replace (Object_eqb o o) with true by (now destruct o). exact IH.
Qed.

Ltac served_objects app unwind :=
  cbn [live_objects];
  match goal with
  | Hlive : live_objects _ [] (rev ?l) = Some ?objs |- _ =>
      first [ rewrite Hlive | rewrite (app _ (rev l)), Hlive ];
      match goal with
      | H : objs = [] |- _ => rewrite H
      | H : ?u = map EDestroy objs |- _ =>
          rewrite ?H, ?unwind
      | _ => idtac
      end
  end;
  cbn [live_objects].

(** X16.  The bus connection and the service object are automatic objects:
    no run destroys an object other than the innermost one alive, and
    whenever [main] returns an exit code, whether the run was orderly or an
    exception was caught, every object whose constructor returned has been
    destroyed, in the reverse order of construction. *)
Theorem objects_released_in_reverse_order
  (d : Daemon) (e : Env) (args : ParsedArgs) :
  (exists objs,
     live_objects e [] (trace (snd (run d e args))) = Some objs) /\
  (forall c, fst (run d e args) = Exit c ->
     live_objects e [] (trace (snd (run d e args))) = Some []).
Proof.
  pose (Post := fun rw : Outcome * World =>
    (exists objs, live_objects e [] (trace (snd rw)) = Some objs) /\
    (forall c, fst rw = Exit c ->
       live_objects e [] (trace (snd rw)) = Some [])).
  change (Post (run d e args)).
  destruct d; top_exec_details serve_behaviour serve_calls idtac.
  all: enter_leaf Post; normalise_trace.
  all: try served_objects live_objects_app live_objects_unwind.
  all: split; [eexists; reflexivity|].
  all: intros c' Hc'; first [reflexivity | discriminate Hc'].
Qed.

Lemma objects_released_in_reverse_order_witness :
  live_objects (with_throws setup_fails calm_env) []
    (trace (snd (run NetCfgD (with_throws setup_fails calm_env) one_minute)))
  = Some [].
Proof.
  apply (proj2 (objects_released_in_reverse_order NetCfgD
                  (with_throws setup_fails calm_env) one_minute) 3).
  vm_compute. reflexivity.
Defined.
